(** * Layer abstraction of the cuDNN backend (src/neural/cuda/layers.h)

    A shallow embedding of the layer classes declared in [layers.h] of
    Leela Chess Zero's cuDNN backend, together with the properties the
    specification states about them.

    [layers.h] is a header: it holds the class layouts, the signatures of the
    constructors, loaders and [Eval] overrides, the default member
    initialisers and the inline bodies of [GetC], [GetH], [GetW] and
    [GetOutputSize].  Those are embedded from the source.  The out-of-line
    bodies (constructors, [LoadWeights], [Eval]) live in [layers.cc] and in
    the CUDA kernels; wherever a definition below stands for one of them its
    comment says so. *)

From Stdlib Require Import ZArith Lia List Bool String QArith.
From stdpp Require Import base list.

Local Open Scope Z_scope.

(** ** Machine integers *)

Module Cxx.

(** [int] is 32 bits wide, [size_t] is an unsigned 64-bit integer on every
    platform CUDA supports (LP64 and LLP64 alike). *)
Definition INT_MIN : Z := - 2 ^ 31.
Definition INT_MAX : Z := 2 ^ 31 - 1.
Definition SIZE_MAX : Z := 2 ^ 64 - 1.

Definition is_int (x : Z) : Prop := INT_MIN <= x <= INT_MAX.

(** Integral conversion of a signed value to [size_t]: reduction modulo
    2^64. *)
Definition to_size_t (x : Z) : Z := x mod 2 ^ 64.

(** Product of two [size_t] values: unsigned arithmetic wraps. *)
Definition size_mul (a b : Z) : Z := (a * b) mod 2 ^ 64.

End Cxx.

(** ** Element types *)

(** The classes are templates over [DataType].  The backend instantiates them
    at single precision and at fp16 (the comment on [BNLayer]'s statistics
    names both). *)
Inductive DataType : Set :=
| float
| half.

Definition sizeof (dt : DataType) : Z :=
  match dt with
  | float => 4
  | half => 2
  end.

(** ** BaseLayer *)

Module BaseLayer.

(** [input_] is a non-owning pointer to the upstream layer ([nullptr] for
    the first layer); [C], [H], [W] are the output tensor dimensions. *)
#[warnings="-register-all"]
Inductive t : Set :=
  Build (input_ : option t) (C : Z) (H : Z) (W : Z).

Definition input_ (l : t) : option t := let 'Build i _ _ _ := l in i.
Definition C (l : t) : Z := let 'Build _ c _ _ := l in c.
Definition H (l : t) : Z := let 'Build _ _ h _ := l in h.
Definition W (l : t) : Z := let 'Build _ _ _ w := l in w.

(** Modelled from the spec: the body of
    [BaseLayer(int c, int h, int w, BaseLayer* ip)] is in layers.cc; the
    base layer is "constructed with declared output shape (C,H,W) and
    optional upstream layer", so the constructor stores its arguments. *)
Definition ctor (c h w : Z) (ip : option t) : t := Build ip c h w.

Definition GetC (l : t) : Z := C l.
Definition GetH (l : t) : Z := H l.
Definition GetW (l : t) : Z := W l.

(** [size_t GetOutputSize(int N) const
      { return sizeof(DataType) * N * C * H * W; }]
    The product associates to the left; [sizeof] has type [size_t], so
    every [int] operand is converted to [size_t] and every product is
    taken modulo 2^64. *)
Definition GetOutputSize (dt : DataType) (l : t) (N : Z) : Z :=
  Cxx.size_mul
    (Cxx.size_mul
       (Cxx.size_mul
          (Cxx.size_mul (sizeof dt) (Cxx.to_size_t N))
          (Cxx.to_size_t (C l)))
       (Cxx.to_size_t (H l)))
    (Cxx.to_size_t (W l)).

(** The size the specification writes down, in unbounded arithmetic. *)
Definition exact_output_size (dt : DataType) (l : t) (N : Z) : Z :=
  sizeof dt * N * C l * H l * W l.

End BaseLayer.

(** ** Device memory owned by a layer *)

(** What an element of each [DataType] is, and the host-to-device conversion
    applied to the single-precision arrays handed to [LoadWeights], belong to
    the accelerator; the development is generic in both. *)
Class ElemModel : Type := {
  value : DataType -> Type;
  from_float : forall dt : DataType, value float -> value dt
}.

(** A parameter pointer [T* p] of a layer is [nullptr], or it owns a device
    buffer: one that has been allocated and not written yet (its contents
    are indeterminate), or one that holds the values transferred to it. No
    two layers share a parameter buffer, so the pointer is modelled by the
    buffer it points to. *)
Inductive DevPtr `{ElemModel} (elem : DataType) : Type :=
| nullptr
| allocated (n : nat)
| holding (buf : list (value elem)).

Arguments nullptr {_ _}.
Arguments allocated {_ _} n.
Arguments holding {_ _} buf.

Definition is_null `{ElemModel} {elem : DataType} (p : DevPtr elem) : bool :=
  match p with
  | nullptr => true
  | _ => false
  end.

(** The buffer has received its values. *)
Definition is_loaded `{ElemModel} {elem : DataType} (p : DevPtr elem) : bool :=
  match p with
  | holding _ => true
  | _ => false
  end.

(** Element type a parameter pointer is declared with. *)
Definition elem_type `{ElemModel} {elem : DataType} (_ : DevPtr elem)
  : DataType := elem.

(** Number of elements behind a parameter pointer. *)
Definition dev_elems `{ElemModel} {elem : DataType} (p : DevPtr elem) : nat :=
  match p with
  | nullptr => 0
  | allocated n => n
  | holding buf => length buf
  end.

(** Bytes of device memory behind a parameter pointer. *)
Definition dev_bytes `{ElemModel} {elem : DataType} (p : DevPtr elem) : Z :=
  sizeof (elem_type p) * Z.of_nat (dev_elems p).

(** Device allocation of [n] elements; a request for no element yields no
    buffer. *)
Definition device_alloc `{ElemModel} {elem : DataType} (n : Z) : DevPtr elem :=
  if 0 <? n then allocated (Z.to_nat n) else nullptr.

(** [void* scratch]: caller-owned, never retained by a layer. *)
Definition void_ptr : Set := option Z.

(** ** cuDNN and cuBLAS types used by the header

    These are declared by the libraries, not by this repository. Handles and
    descriptors are opaque pointers; a member the header leaves without an
    initialiser is indeterminate until out-of-line code assigns it ([None]). *)
Module cudnn.

Definition cudnnHandle_t : Set := Z.
Definition cublasHandle_t : Set := Z.
Definition cudnnFilterDescriptor_t : Set := Z.
Definition cudnnConvolutionDescriptor_t : Set := Z.
Definition cudnnTensorDescriptor_t : Set := Z.
Definition cudnnActivationDescriptor_t : Set := Z.

Inductive cudnnConvolutionFwdAlgo_t : Set :=
| CUDNN_CONVOLUTION_FWD_ALGO_IMPLICIT_GEMM
| CUDNN_CONVOLUTION_FWD_ALGO_IMPLICIT_PRECOMP_GEMM
| CUDNN_CONVOLUTION_FWD_ALGO_GEMM
| CUDNN_CONVOLUTION_FWD_ALGO_DIRECT
| CUDNN_CONVOLUTION_FWD_ALGO_FFT
| CUDNN_CONVOLUTION_FWD_ALGO_FFT_TILING
| CUDNN_CONVOLUTION_FWD_ALGO_WINOGRAD
| CUDNN_CONVOLUTION_FWD_ALGO_WINOGRAD_NONFUSED.

End cudnn.

(** ** Tensors as flat device buffers

    A tensor is a contiguous buffer in NCHW order: element (n, c, h, w) of an
    N x C x H x W tensor sits at offset ((n * C + c) * H + h) * W + w. The
    arithmetic on elements is the accelerator's; the development is generic
    in it, so that what is proved about the order of the operations holds
    for rounded and for exact arithmetic alike. *)

Class Arith (T : Type) : Type := {
  ezero : T;
  eadd : T -> T -> T;
  emul : T -> T -> T;
  (** rectifying activation *)
  erelu : T -> T;
  (** quotient of an accumulated sum by an element count *)
  ediv : T -> nat -> T
}.

Module Tensor.
Local Open Scope nat_scope.
Section Tensor.
Context {T : Type} `{AR : Arith T}.

(** [buf[i]]. Every read made below is in range once the buffers have the
    sizes the caller owes; outside them the C++ is undefined. *)
Definition get (buf : list T) (i : nat) : T := nth i buf ezero.

(** One value per index [0 .. n-1], as a kernel with one thread per output
    element computes it. *)
Definition tabulate (n : nat) (f : nat -> T) : list T := f <$> seq 0 n.

(** Left-to-right accumulation from zero. *)
Definition sum (xs : list T) : T := fold_left eadd xs ezero.

(** Arithmetic mean. *)
Definition mean (xs : list T) : T := ediv (sum xs) (length xs).

(** NCHW offset. *)
Definition offset (C H W n c h w : nat) : nat := ((n * C + c) * H + h) * W + w.

(** The values of batch element [n], channel [c] at the spatial positions
    (h, w), row by row. *)
Definition spatial (C H W : nat) (x : list T) (n c : nat) : list T :=
  flat_map (fun h => (fun w => get x (offset C H W n c h w)) <$> seq 0 W)
           (seq 0 H).

(** The [HW] values of plane [nc] (batch element and channel fused). *)
Definition plane (HW : nat) (x : list T) (nc : nat) : list T :=
  tabulate HW (fun p => get x (nc * HW + p)).

(** Modelled from the spec: the element-wise kernels are CUDA code that is
    not in layers.h. "Add a previous-layer bias to the primary input":
    [bias[c]] is added to every element of channel [c]. *)
Definition add_channel_bias (N C HW : nat) (x bias : list T) : list T :=
  tabulate (N * C * HW) (fun i => eadd (get x i) (get bias ((i / HW) mod C))).

(** Modelled from the spec: the pooling kernel is CUDA code that is not in
    layers.h. "Global average pool over spatial dimensions to produce one
    value per channel per batch element": (N, C, H, W) to (N, C). *)
Definition global_avg_pool (N C HW : nat) (x : list T) : list T :=
  tabulate (N * C) (fun nc => mean (plane HW x nc)).

(** Modelled from the spec: the dense stages run on the accelerated math
    backend, called from layers.cc. A "dense affine transform" on a batch:
    [x] is (N, n_in), [w] is (n_out, n_in) row major, [b] has [n_out]
    entries; the activation is applied to [w . x + b]. *)
Definition fully_connected (act : T -> T) (N n_in n_out : nat)
    (w b x : list T) : list T :=
  tabulate (N * n_out) (fun i =>
    let n := i / n_out in
    let j := i mod n_out in
    act (eadd (sum (tabulate n_in (fun k =>
                      emul (get w (j * n_in + k)) (get x (n * n_in + k)))))
              (get b j))).

(** In a (N, 2C) scale/shift buffer the row of batch element [n] holds the
    [C] scales followed by the [C] shifts. *)
Definition scale_of (C : nat) (sb : list T) (n c : nat) : T :=
  get sb (n * (2 * C) + c).
Definition shift_of (C : nat) (sb : list T) (n c : nat) : T :=
  get sb (n * (2 * C) + C + c).

(** Modelled from the spec: the scaling kernel is CUDA code that is not in
    layers.h. [y * scale + shift + residual], with the per-(n, c) scale and
    shift broadcast over the plane; [act] is applied to the result. *)
Definition global_scale (act : T -> T) (N C HW : nat)
    (y sb : list T) (residual : option (list T)) : list T :=
  tabulate (N * C * HW) (fun i =>
    let nc := i / HW in
    let n := nc / C in
    let c := nc mod C in
    let v := eadd (emul (get y i) (scale_of C sb n c)) (shift_of C sb n c) in
    act (match residual with
         | Some r => eadd v (get r i)
         | None => v
         end)).

End Tensor.
End Tensor.

(** ** ConvLayer *)

Module ConvLayer.
Section ConvLayer.
Context `{EM : ElemModel} (dt : DataType).

Record t : Type := Build {
  base : BaseLayer.t;
  c_input_ : Z;
  filter_size_ : Z;
  use_relu_ : bool;
  use_bias_ : bool;
  biases : DevPtr dt;
  weights : DevPtr dt;
  filter_desc_ : option cudnn.cudnnFilterDescriptor_t;
  conv_desc_ : option cudnn.cudnnConvolutionDescriptor_t;
  conv_algo_ : option cudnn.cudnnConvolutionFwdAlgo_t;
  bias_desc_ : option cudnn.cudnnTensorDescriptor_t;
  in_tensor_desc_ : option cudnn.cudnnTensorDescriptor_t;
  out_tensor_desc_ : option cudnn.cudnnTensorDescriptor_t;
  activation_ : option cudnn.cudnnActivationDescriptor_t
}.

(** Modelled from the spec: the body of
    [ConvLayer(ip, C, H, W, size, Cin, relu = false, bias = false)] is in
    layers.cc. The four [const] members can only be set by the constructor
    and take the arguments of the same meaning. [biases] and [weights] start
    from their default member initialiser [nullptr] (layers.h:81-82); a
    layer is "constructed once at model-load time (shape + parameter
    allocation)", so the constructor allocates the filter, "shaped
    (outChannels, inChannels, size, size)", and the "optional
    per-output-channel bias" when it is in use. Members without an
    initialiser start indeterminate. *)
Definition ctor (ip : option BaseLayer.t) (C H W size Cin : Z)
    (relu bias : bool) : t :=
  {| base := BaseLayer.ctor C H W ip;
     c_input_ := Cin;
     filter_size_ := size;
     use_relu_ := relu;
     use_bias_ := bias;
     biases := if bias then device_alloc C else nullptr;
     weights := device_alloc (C * Cin * size * size);
     filter_desc_ := None;
     conv_desc_ := None;
     conv_algo_ := None;
     bias_desc_ := None;
     in_tensor_desc_ := None;
     out_tensor_desc_ := None;
     activation_ := None |}.

(** The trailing parameters [relu] and [bias] default to [false]. *)
Definition ctor_default (ip : option BaseLayer.t) (C H W size Cin : Z) : t :=
  ctor ip C H W size Cin false false.

(** When the layer asks the backend for its algorithm: the specification
    allows either ("once, at load or first-use time"). *)
Inductive selection_time : Set :=
| AtLoad
| AtFirstUse.

(** The accelerated math backend: which algorithm it reports as fastest
    for the declared shapes, and the (fused) convolution it runs with a
    given algorithm. Both are outside this repository. *)
Context (when : selection_time).
Context (fastest_algo : BaseLayer.t -> Z -> Z -> cudnn.cudnnConvolutionFwdAlgo_t).
Context (conv_forward :
           cudnn.cudnnConvolutionFwdAlgo_t -> t -> Z ->
           list (value dt) -> option (list (value dt)) -> list (value dt)).

(** What a call asks of the backend. *)
Inductive event : Type :=
| SelectAlgo (a : cudnn.cudnnConvolutionFwdAlgo_t)
| ConvForward (a : cudnn.cudnnConvolutionFwdAlgo_t) (N : Z).

Definition is_select (e : event) : bool :=
  match e with
  | SelectAlgo _ => true
  | ConvForward _ _ => false
  end.

Definition set_conv_algo (l : t) (a : cudnn.cudnnConvolutionFwdAlgo_t) : t :=
  {| base := base l; c_input_ := c_input_ l; filter_size_ := filter_size_ l;
     use_relu_ := use_relu_ l; use_bias_ := use_bias_ l;
     biases := biases l; weights := weights l;
     filter_desc_ := filter_desc_ l; conv_desc_ := conv_desc_ l;
     conv_algo_ := Some a;
     bias_desc_ := bias_desc_ l; in_tensor_desc_ := in_tensor_desc_ l;
     out_tensor_desc_ := out_tensor_desc_ l; activation_ := activation_ l |}.

Definition set_params (l : t) (w b : DevPtr dt) : t :=
  {| base := base l; c_input_ := c_input_ l; filter_size_ := filter_size_ l;
     use_relu_ := use_relu_ l; use_bias_ := use_bias_ l;
     biases := b; weights := w;
     filter_desc_ := filter_desc_ l; conv_desc_ := conv_desc_ l;
     conv_algo_ := conv_algo_ l;
     bias_desc_ := bias_desc_ l; in_tensor_desc_ := in_tensor_desc_ l;
     out_tensor_desc_ := out_tensor_desc_ l; activation_ := activation_ l |}.

(** Modelled from the spec: the out-of-line code that fills [conv_algo_] is
    in layers.cc. The layer "selects (once, at load or first-use time) the
    fastest available convolution algorithm for the declared shapes and
    caches that choice for reuse": the backend is asked only while no choice
    is cached; the result is the layer with its cache filled, the algorithm
    to run with, and what was asked of the backend. *)
Definition select_algo (l : t)
  : t * cudnn.cudnnConvolutionFwdAlgo_t * list event :=
  match conv_algo_ l with
  | Some a => (l, a, [])
  | None =>
      let a := fastest_algo (base l) (c_input_ l) (filter_size_ l) in
      (set_conv_algo l a, a, [SelectAlgo a])
  end.

(** Modelled from the spec: the body of
    [LoadWeights(float* pfilter, float* pBias, void* scratch)] is in
    layers.cc. Loading "transfers filter/bias data to device memory",
    converted to [dt], into the buffers of the layer; the bias is optional.
    The algorithm is selected here when selection is at load time. *)
Definition LoadWeights (l : t) (pfilter pBias : list (value float))
    (scratch : void_ptr) : t * list event :=
  let '(l1, ev) :=
    match when with
    | AtLoad => let '(l1, _, ev) := select_algo l in (l1, ev)
    | AtFirstUse => (l, [])
    end in
  (set_params l1
     (holding (from_float dt <$> pfilter))
     (if use_bias_ l1 then holding (from_float dt <$> pBias) else biases l1),
   ev).

(** Modelled from the spec: the body of [Eval] is in layers.cc.
    Evaluation before loading is a usage error ([None]); otherwise the
    convolution runs with the cached algorithm, which an evaluation that
    finds the cache empty fills first. [Eval] is not a [const] member; the
    cache is the only part of the layer it may change. *)
Definition Eval (l : t) (N : Z) (input : list (value dt))
    (input2 : option (list (value dt))) (scratch : void_ptr)
    (scratch_size : Z) (cudnn : cudnn.cudnnHandle_t)
    (cublas : cudnn.cublasHandle_t)
  : option (t * list (value dt) * list event) :=
  match weights l with
  | holding _ =>
      let '(l1, a, ev) := select_algo l in
      Some (l1, conv_forward a l1 N input input2, ev ++ [ConvForward a N])
  | _ => None
  end.

(** Calls a client can make on a constructed layer, and their effect on the
    layer and on the backend trace. *)
Inductive call : Type :=
| CallLoadWeights (pfilter pBias : list (value float)) (scratch : void_ptr)
| CallEval (N : Z) (input : list (value dt))
           (input2 : option (list (value dt))) (scratch : void_ptr)
           (scratch_size : Z) (cudnn : cudnn.cudnnHandle_t)
           (cublas : cudnn.cublasHandle_t).

Definition is_eval_call (c : call) : bool :=
  match c with
  | CallLoadWeights _ _ _ => false
  | CallEval _ _ _ _ _ _ _ => true
  end.

Definition step (l : t) (c : call) : option (t * list event) :=
  match c with
  | CallLoadWeights pfilter pBias scratch =>
      Some (LoadWeights l pfilter pBias scratch)
  | CallEval N input input2 scratch scratch_size cudnn cublas =>
      match Eval l N input input2 scratch scratch_size cudnn cublas with
      | Some (l1, _, ev) => Some (l1, ev)
      | None => None
      end
  end.

Fixpoint run (l : t) (cs : list call) : option (t * list event) :=
  match cs with
  | [] => Some (l, [])
  | c :: cs' =>
      match step l c with
      | Some (l1, ev1) =>
          match run l1 cs' with
          | Some (l2, ev2) => Some (l2, ev1 ++ ev2)
          | None => None
          end
      | None => None
      end
  end.

(** Number of times the backend was asked for an algorithm, and number of
    convolutions it ran. *)
Definition selections (tr : list event) : nat :=
  length (filter (fun e => is_select e = true) tr).
Definition convolutions (tr : list event) : nat :=
  length (filter (fun e => is_select e = false) tr).

(** The algorithm an event is about. *)
Definition event_algo (e : event) : cudnn.cudnnConvolutionFwdAlgo_t :=
  match e with
  | SelectAlgo a => a
  | ConvForward a _ => a
  end.

(** 1 when an algorithm is cached, 0 otherwise. *)
Definition cached (l : t) : nat :=
  match conv_algo_ l with
  | Some _ => 1
  | None => 0
  end.

(** Number of evaluations among the calls. *)
Definition eval_calls (cs : list call) : nat :=
  length (filter (fun c => is_eval_call c = true) cs).

(** The shape the algorithm is selected for is that of the construction,
    and the cache is empty or holds the algorithm for that shape. *)
Definition cache_ok (b : BaseLayer.t) (ci fs : Z) (l : t)
  : Prop :=
  base l = b /\
  c_input_ l = ci /\
  filter_size_ l = fs /\
  (conv_algo_ l = None \/
   conv_algo_ l = Some (fastest_algo b ci fs)).

(** What one call did: it kept the shape, asked the backend exactly when it
    filled the cache, and used no other algorithm than the one for the
    shape. *)
Definition call_ok (b : BaseLayer.t) (ci fs : Z) (l : t)
    (l' : t) (tr : list event) : Prop :=
  cache_ok b ci fs l' /\
  (selections tr + cached l)%nat
  = cached l' /\
  Forall (fun e => event_algo e = fastest_algo b ci fs) tr.

End ConvLayer.
End ConvLayer.

(** ** SoftMaxLayer *)

Module SoftMaxLayer.

Record t : Type := Build {
  base : BaseLayer.t;
  out_tensor_desc_ : option cudnn.cudnnTensorDescriptor_t
}.

(** Modelled from the spec: the body of [SoftMaxLayer(ip)] is in layers.cc;
    a layer references "its upstream layer for shape inference at
    construction time", so the output shape is the upstream shape. *)
Definition ctor (ip : BaseLayer.t) : t :=
  {| base := BaseLayer.ctor (BaseLayer.GetC ip) (BaseLayer.GetH ip)
                            (BaseLayer.GetW ip) (Some ip);
     out_tensor_desc_ := None |}.

End SoftMaxLayer.

(** ** BNLayer *)

Module BNLayer.
Section BNLayer.
Context `{EM : ElemModel}.

(** "Weights for BN layer are always in float irrespective of DataType":
    both statistics are declared [float*], not [DataType*], in
    [BNLayer<DataType>]. *)
Record t (dt : DataType) : Type := Build {
  base : BaseLayer.t;
  use_relu_ : bool;
  means_ : DevPtr float;
  variances_ : DevPtr float
}.

Context (dt : DataType).

(** Modelled from the spec: the body of [BNLayer(ip, relu)] is in
    layers.cc; shape from the upstream layer, [use_relu_] from the
    argument. The statistics start from their default member initialiser
    [nullptr] (layers.h:128-129) and construction allocates them, "per-channel
    mean and variance". *)
Definition ctor (ip : BaseLayer.t) (relu : bool) : t dt :=
  {| base := BaseLayer.ctor (BaseLayer.GetC ip) (BaseLayer.GetH ip)
                            (BaseLayer.GetW ip) (Some ip);
     use_relu_ := relu;
     means_ := device_alloc (BaseLayer.GetC ip);
     variances_ := device_alloc (BaseLayer.GetC ip) |}.

(** Modelled from the spec: the body of
    [LoadWeights(float* cpuMeans, float* cpuVar)] is in layers.cc. Loading
    transfers the host arrays to device memory; the destination is a
    [float] buffer, so no conversion to [dt] takes place. *)
Definition LoadWeights (l : t dt) (cpuMeans cpuVar : list (value float))
  : t dt :=
  {| base := base dt l;
     use_relu_ := use_relu_ dt l;
     means_ := holding cpuMeans;
     variances_ := holding cpuVar |}.

End BNLayer.
End BNLayer.

(** ** FCLayer *)

Module FCLayer.
Section FCLayer.
Context `{EM : ElemModel} (dt : DataType).

Record t : Type := Build {
  base : BaseLayer.t;
  use_bias_ : bool;
  use_relu_ : bool;
  use_tanh_ : bool;
  use_sigmoid_ : bool;
  weights_ : DevPtr dt;
  biases_ : DevPtr dt
}.

End FCLayer.
End FCLayer.

(** ** SELayer *)

Module SELayer.
Section SELayer.
Context `{EM : ElemModel} (dt : DataType).

Record t : Type := Build {
  base : BaseLayer.t;
  w1_ : DevPtr dt;
  b1_ : DevPtr dt;
  w2_ : DevPtr dt;
  b2_ : DevPtr dt;
  bPrev_ : DevPtr dt;
  numFc1Out_ : Z;
  addPrevLayerBias_ : bool
}.

(** Modelled from the spec: the body of
    [SELayer(ip, numFc1Out, addPrevLayerBias = false)] is in layers.cc. The
    shape comes from the upstream layer, the two configuration members from
    the arguments. The five parameter pointers start from their default
    member initialiser [nullptr] (layers.h:173-177); construction allocates
    the weights and biases of the two dense stages (C to [numFc1Out], then
    [numFc1Out] to 2C) and the previous-layer bias when it is to be
    added. *)
Definition ctor (ip : BaseLayer.t) (numFc1Out : Z) (addPrevLayerBias : bool)
  : t :=
  {| base := BaseLayer.ctor (BaseLayer.GetC ip) (BaseLayer.GetH ip)
                            (BaseLayer.GetW ip) (Some ip);
     w1_ := device_alloc (BaseLayer.GetC ip * numFc1Out);
     b1_ := device_alloc numFc1Out;
     w2_ := device_alloc (2 * BaseLayer.GetC ip * numFc1Out);
     b2_ := device_alloc (2 * BaseLayer.GetC ip);
     bPrev_ := if addPrevLayerBias
               then device_alloc (BaseLayer.GetC ip) else nullptr;
     numFc1Out_ := numFc1Out;
     addPrevLayerBias_ := addPrevLayerBias |}.

Definition ctor_default (ip : BaseLayer.t) (numFc1Out : Z) : t :=
  ctor ip numFc1Out false.

(** Modelled from the spec: the body of
    [LoadWeights(w1, b1, w2, b2, prevLayerBias, scratch)] is in layers.cc.
    "Loading accepts four weight/bias arrays (for the two FC stages) plus the
    optional previous-layer bias vector, all transferred to device memory";
    the previous-layer bias is taken when the layer was configured to add
    it. *)
Definition LoadWeights (l : t) (w1 b1 w2 b2 prevLayerBias : list (value float))
    (scratch : void_ptr) : t :=
  {| base := base l;
     w1_ := holding (from_float dt <$> w1);
     b1_ := holding (from_float dt <$> b1);
     w2_ := holding (from_float dt <$> w2);
     b2_ := holding (from_float dt <$> b2);
     bPrev_ := if addPrevLayerBias_ l
               then holding (from_float dt <$> prevLayerBias)
               else bPrev_ l;
     numFc1Out_ := numFc1Out_ l;
     addPrevLayerBias_ := addPrevLayerBias_ l |}.

Context `{AR : !Arith (value dt)}.

Definition plane_size (l : t) : nat :=
  (Z.to_nat (BaseLayer.H (base l)) * Z.to_nat (BaseLayer.W (base l)))%nat.

(** Step 1 of the fused operator: the primary input, with the bias of the
    previous layer added per channel when the layer is configured so. *)
Definition biased_input (l : t) (N : Z) (input : list (value dt))
  : option (list (value dt)) :=
  if addPrevLayerBias_ l
  then match bPrev_ l with
       | holding bPrev =>
           Some (Tensor.add_channel_bias (Z.to_nat N)
                   (Z.to_nat (BaseLayer.C (base l))) (plane_size l)
                   input bPrev)
       | _ => None
       end
  else Some input.

(** "The skip-connection input buffer, when present, must match the layer's
    declared output shape exactly." *)
Definition skip_fits (total : nat) (input2 : option (list (value dt))) : bool :=
  match input2 with
  | Some skip => (length skip =? total)%nat
  | None => true
  end.

(** Modelled from the spec: the body of [Eval] is in layers.cc and in CUDA
    kernels. The header names the steps, "(optional bias add +) global avg
    -> FC1 -> FC2 -> global scale -> add skip connection -> RELU", and the
    spec spells them out: the first dense stage reduces C channels to
    [numFc1Out_] and is rectified, the second expands to 2C values read as
    per-channel scale and shift, which are applied to the full-resolution
    tensor that went into the pooling; then the skip input [input2] is added
    and the result rectified. Evaluation before loading and buffers of the
    wrong size are usage errors. *)
Definition Eval (l : t) (N : Z) (input : list (value dt))
    (input2 : option (list (value dt))) (scratch : void_ptr)
    (scratch_size : Z) (cudnn : cudnn.cudnnHandle_t)
    (cublas : cudnn.cublasHandle_t) : option (list (value dt)) :=
  let n := Z.to_nat N in
  let c := Z.to_nat (BaseLayer.C (base l)) in
  let hw := plane_size l in
  let m := Z.to_nat (numFc1Out_ l) in
  let total := (n * c * hw)%nat in
  match w1_ l, b1_ l, w2_ l, b2_ l with
  | holding w1, holding b1, holding w2, holding b2 =>
      if (length input =? total)%nat && skip_fits total input2
      then
        match biased_input l N input with
        | Some x =>
            let pooled := Tensor.global_avg_pool n c hw x in
            let fc1 := Tensor.fully_connected erelu n c m w1 b1 pooled in
            let fc2 :=
              Tensor.fully_connected (fun v => v) n m (2 * c) w2 b2 fc1 in
            Some (Tensor.global_scale erelu n c hw x fc2 input2)
        | None => None
        end
      else None
  | _, _, _, _ => None
  end.

(** The intermediate buffers of [Eval], by name. *)
Definition step1 (l : t) (N : Z) (bPrev input : list (value dt))
  : list (value dt) :=
  if addPrevLayerBias_ l
  then Tensor.add_channel_bias (Z.to_nat N)
         (Z.to_nat (BaseLayer.C (base l))) (plane_size l) input bPrev
  else input.

Definition fc1_buffer (l : t) (N : Z) (w1 b1 bPrev input : list (value dt))
  : list (value dt) :=
  Tensor.fully_connected erelu (Z.to_nat N)
    (Z.to_nat (BaseLayer.C (base l))) (Z.to_nat (numFc1Out_ l)) w1 b1
    (Tensor.global_avg_pool (Z.to_nat N) (Z.to_nat (BaseLayer.C (base l)))
       (plane_size l) (step1 l N bPrev input)).

Definition fc2_buffer (l : t) (N : Z)
    (w1 b1 w2 b2 bPrev input : list (value dt)) : list (value dt) :=
  Tensor.fully_connected (fun v => v) (Z.to_nat N)
    (Z.to_nat (numFc1Out_ l)) (2 * Z.to_nat (BaseLayer.C (base l))) w2 b2
    (fc1_buffer l N w1 b1 bPrev input).

(** *** The fused operator, coordinate by coordinate

    The steps as the specification words them, for batch element [n],
    channel [c] and position [p] of the plane; [Eval] is compared with
    these. *)

Definition channels (l : t) : nat := Z.to_nat (BaseLayer.C (base l)).
Definition reduced (l : t) : nat := Z.to_nat (numFc1Out_ l).
Definition flat (l : t) (n c p : nat) : nat :=
  ((n * channels l + c) * plane_size l + p)%nat.

(** (optional) add a previous-layer bias to the primary input *)
Definition biased_at (l : t) (bPrev input : list (value dt))
    (n c p : nat) : value dt :=
  if addPrevLayerBias_ l
  then eadd (Tensor.get input (flat l n c p)) (Tensor.get bPrev c)
  else Tensor.get input (flat l n c p).

(** global average pool over spatial dimensions: one value per channel per
    batch element *)
Definition pooled_at (l : t) (bPrev input : list (value dt))
    (n c : nat) : value dt :=
  Tensor.mean (Tensor.tabulate (plane_size l) (biased_at l bPrev input n c)).

(** first fully-connected reduction with rectifying activation *)
Definition fc1_at (l : t) (w1 b1 bPrev input : list (value dt))
    (n j : nat) : value dt :=
  erelu (eadd (Tensor.sum
                 (Tensor.tabulate (channels l) (fun c =>
                    emul (Tensor.get w1 (j * channels l + c)%nat)
                         (pooled_at l bPrev input n c))))
              (Tensor.get b1 j)).

(** second fully-connected expansion, 2C outputs per batch element *)
Definition fc2_at (l : t) (w1 b1 w2 b2 bPrev input : list (value dt))
    (n k : nat) : value dt :=
  eadd (Tensor.sum
          (Tensor.tabulate (reduced l) (fun j =>
             emul (Tensor.get w2 (k * reduced l + j)%nat)
                  (fc1_at l w1 b1 bPrev input n j))))
       (Tensor.get b2 k).

(** ... read as per-channel scale and per-channel shift *)
Definition scale_at (l : t) (w1 b1 w2 b2 bPrev input : list (value dt))
    (n c : nat) : value dt :=
  fc2_at l w1 b1 w2 b2 bPrev input n c.
Definition shift_at (l : t) (w1 b1 w2 b2 bPrev input : list (value dt))
    (n c : nat) : value dt :=
  fc2_at l w1 b1 w2 b2 bPrev input n (channels l + c).

(** apply the scale/shift to the full-resolution tensor, add the skip
    input, apply the final rectifying activation *)
Definition result_at (l : t) (w1 b1 w2 b2 bPrev input : list (value dt))
    (input2 : option (list (value dt))) (n c p : nat) : value dt :=
  let v := eadd (emul (biased_at l bPrev input n c p)
                      (scale_at l w1 b1 w2 b2 bPrev input n c))
                (shift_at l w1 b1 w2 b2 bPrev input n c) in
  erelu (match input2 with
         | Some skip => eadd v (Tensor.get skip (flat l n c p))
         | None => v
         end).

End SELayer.
End SELayer.

(** ** GlobalAvgPoolLayer *)

Module GlobalAvgPoolLayer.

(** The class declares no member of its own. *)
Record t : Type := Build {
  base : BaseLayer.t
}.

(** Modelled from the spec: the body of [GlobalAvgPoolLayer(ip)] is in
    layers.cc. "Declared output shape fixes H=W=1"; the header adds that the
    "output is 2 dimensional containing NxC elements", so the channel count
    is the upstream one. *)
Definition ctor (ip : BaseLayer.t) : t :=
  {| base := BaseLayer.ctor (BaseLayer.GetC ip) 1 1 (Some ip) |}.

Section Eval.
Context `{EM : ElemModel} (dt : DataType) `{AR : !Arith (value dt)}.

(** Size of one input plane: the spatial extent of the upstream layer. *)
Definition plane_size (l : t) : nat :=
  match BaseLayer.input_ (base l) with
  | Some ip =>
      (Z.to_nat (BaseLayer.GetH ip) * Z.to_nat (BaseLayer.GetW ip))%nat
  | None => 0%nat
  end.

(** Modelled from the spec: the body of [Eval] is in layers.cc and in a
    CUDA kernel. The layer "reduces each (N, C, H, W) input to (N, C, 1, 1)
    by averaging over HxW per channel per batch element"; a primary input
    that does not have N*C*H*W elements is a usage error. [input2], the
    scratch region and the handles are not used. *)
Definition Eval (l : t) (N : Z) (input : list (value dt))
    (input2 : option (list (value dt))) (scratch : void_ptr)
    (scratch_size : Z) (cudnn : cudnn.cudnnHandle_t)
    (cublas : cudnn.cublasHandle_t) : option (list (value dt)) :=
  let n := Z.to_nat N in
  let c := Z.to_nat (BaseLayer.C (base l)) in
  if decide (length input = (n * c * plane_size l)%nat)
  then Some (Tensor.global_avg_pool n c (plane_size l) input)
  else None.

End Eval.

End GlobalAvgPoolLayer.

(** ** GlobalScaleLayer *)

Module GlobalScaleLayer.

(** The class declares no member of its own. *)
Record t : Type := Build {
  base : BaseLayer.t
}.

(** Modelled from the spec: the body of [GlobalScaleLayer(ip)] is in
    layers.cc; [ip] "is pointer to 'input' (of dimension NCHW)" and the
    output has the shape of that input. *)
Definition ctor (ip : BaseLayer.t) : t :=
  {| base := BaseLayer.ctor (BaseLayer.GetC ip) (BaseLayer.GetH ip)
                            (BaseLayer.GetW ip) (Some ip) |}.

End GlobalScaleLayer.

(** ** The closed set of layer kinds *)

Module Layer.
Section Layer.
Context `{EM : ElemModel} (dt : DataType).

(** Every class of the header derives from [BaseLayer<DataType>]. *)
Inductive t : Type :=
| Conv (l : ConvLayer.t dt)
| SoftMax (l : SoftMaxLayer.t)
| BN (l : BNLayer.t dt)
| FC (l : FCLayer.t dt)
| SE (l : SELayer.t dt)
| GlobalAvgPool (l : GlobalAvgPoolLayer.t)
| GlobalScale (l : GlobalScaleLayer.t).

(** The [BaseLayer] subobject. *)
Definition base (l : t) : BaseLayer.t :=
  match l with
  | Conv l => ConvLayer.base dt l
  | SoftMax l => SoftMaxLayer.base l
  | BN l => BNLayer.base dt l
  | FC l => FCLayer.base dt l
  | SE l => SELayer.base dt l
  | GlobalAvgPool l => GlobalAvgPoolLayer.base l
  | GlobalScale l => GlobalScaleLayer.base l
  end.

(** [GetC], [GetH], [GetW] and [GetOutputSize] are non-virtual members of
    [BaseLayer] that no derived class redeclares: every layer kind runs the
    base implementation on its base subobject. *)
Definition GetC (l : t) : Z := BaseLayer.GetC (base l).
Definition GetH (l : t) : Z := BaseLayer.GetH (base l).
Definition GetW (l : t) : Z := BaseLayer.GetW (base l).
Definition GetOutputSize (l : t) (N : Z) : Z :=
  BaseLayer.GetOutputSize dt (base l) N.

(** A parameter pointer together with the element type it is declared
    with. *)
Definition any_ptr : Type := { elem : DataType & DevPtr elem }.
Definition ptr_of {elem : DataType} (p : DevPtr elem) : any_ptr :=
  existT elem p.
Definition any_null (p : any_ptr) : bool := is_null (projT2 p).
Definition any_loaded (p : any_ptr) : bool := is_loaded (projT2 p).
Definition any_bytes (p : any_ptr) : Z := dev_bytes (projT2 p).

(** The parameter pointers a layer owns, in declaration order. *)
Definition param_ptrs (l : t) : list any_ptr :=
  match l with
  | Conv l => [ptr_of (ConvLayer.biases dt l); ptr_of (ConvLayer.weights dt l)]
  | SoftMax _ => []
  | BN l => [ptr_of (BNLayer.means_ dt l); ptr_of (BNLayer.variances_ dt l)]
  | FC l => [ptr_of (FCLayer.weights_ dt l); ptr_of (FCLayer.biases_ dt l)]
  | SE l => [ptr_of (SELayer.w1_ dt l); ptr_of (SELayer.b1_ dt l);
             ptr_of (SELayer.w2_ dt l); ptr_of (SELayer.b2_ dt l);
             ptr_of (SELayer.bPrev_ dt l)]
  | GlobalAvgPool _ => []
  | GlobalScale _ => []
  end.

(** The parameter pointers evaluation reads: the biases the specification
    calls optional only when the layer is configured to use them. *)
Definition required_ptrs (l : t) : list any_ptr :=
  match l with
  | Conv l =>
      (if ConvLayer.use_bias_ dt l then [ptr_of (ConvLayer.biases dt l)] else [])
      ++ [ptr_of (ConvLayer.weights dt l)]
  | SoftMax _ => []
  | BN l => [ptr_of (BNLayer.means_ dt l); ptr_of (BNLayer.variances_ dt l)]
  | FC l =>
      ptr_of (FCLayer.weights_ dt l)
      :: (if FCLayer.use_bias_ dt l then [ptr_of (FCLayer.biases_ dt l)] else [])
  | SE l =>
      [ptr_of (SELayer.w1_ dt l); ptr_of (SELayer.b1_ dt l);
       ptr_of (SELayer.w2_ dt l); ptr_of (SELayer.b2_ dt l)]
      ++ (if SELayer.addPrevLayerBias_ dt l
          then [ptr_of (SELayer.bPrev_ dt l)] else [])
  | GlobalAvgPool _ => []
  | GlobalScale _ => []
  end.

(** Device memory held for parameters. *)
Definition param_bytes (l : t) : Z :=
  fold_right Z.add 0 (any_bytes <$> param_ptrs l).

(** The Loaded state of the lifecycle "Constructed -> Loaded -> Evaluable":
    every parameter buffer evaluation reads holds its values. *)
Definition evaluable (l : t) : bool :=
  forallb any_loaded (required_ptrs l).

(** The three kinds that declare no parameter member. *)
Definition parameterless (l : t) : bool :=
  match l with
  | SoftMax _ | GlobalAvgPool _ | GlobalScale _ => true
  | _ => false
  end.

(** Buffers a destructor has to free. *)
Definition to_release (l : t) : list any_ptr :=
  filter (fun p => any_null p = false) (param_ptrs l).

End Layer.
End Layer.

(** ** The declarations of layers.h

    The header as data: for every class its base, its data members with
    their default member initialisers, and its member functions with their
    parameter lists. Signature-level statements are decided on this
    table. *)

Module Header.
Local Open Scope string_scope.

Inductive pointee : Set :=
| P_DataType
| P_float
| P_void
| P_BaseLayer.

Inductive ctype : Set :=
| T_void
| T_int
| T_bool
| T_size_t
| T_ptr (is_const : bool) (to : pointee)
| T_cudnnHandle_t
| T_cublasHandle_t
| T_cudnnFilterDescriptor_t
| T_cudnnConvolutionDescriptor_t
| T_cudnnConvolutionFwdAlgo_t
| T_cudnnTensorDescriptor_t
| T_cudnnActivationDescriptor_t.

(** Default argument of a parameter, or default member initialiser. *)
Inductive initialiser : Set :=
| NoInit
| InitFalse
| InitNullptr.

(** A parameter or a data member. *)
Record decl : Set := mk_decl {
  d_const : bool;
  d_type : ctype;
  d_name : string;
  d_init : initialiser
}.

Inductive member_kind : Set :=
| K_constructor
| K_destructor
| K_function.

Record method : Set := mk_method {
  m_kind : member_kind;
  m_name : string;
  m_return : option ctype;
  m_params : list decl;
  m_pure_virtual : bool
}.

Record class : Set := mk_class {
  c_name : string;
  c_base : option string;
  c_fields : list decl;
  c_methods : list method
}.

Definition param (ty : ctype) (name : string) : decl := mk_decl false ty name NoInit.
Definition field (ty : ctype) (name : string) : decl := mk_decl false ty name NoInit.
Definition const_field (ty : ctype) (name : string) : decl :=
  mk_decl true ty name NoInit.

Definition DataType_ptr : ctype := T_ptr false P_DataType.
Definition const_DataType_ptr : ctype := T_ptr true P_DataType.
Definition float_ptr : ctype := T_ptr false P_float.
Definition void_ptr : ctype := T_ptr false P_void.
Definition BaseLayer_ptr : ctype := T_ptr false P_BaseLayer.

(** [void Eval(int N, DataType* output, const DataType* input,
               const DataType* input2, void* scratch, size_t scratch_size,
               cudnnHandle_t cudnn, cublasHandle_t cublas)] *)
Definition Eval_params : list decl :=
  [ param T_int "N";
    param DataType_ptr "output";
    param const_DataType_ptr "input";
    param const_DataType_ptr "input2";
    param void_ptr "scratch";
    param T_size_t "scratch_size";
    param T_cudnnHandle_t "cudnn";
    param T_cublasHandle_t "cublas" ].

Definition Eval_decl (pure : bool) : method :=
  mk_method K_function "Eval" (Some T_void) Eval_params pure.

Definition BaseLayer : class :=
  mk_class "BaseLayer" None
    [ field BaseLayer_ptr "input_";
      field T_int "C";
      field T_int "H";
      field T_int "W" ]
    [ mk_method K_function "GetC" (Some T_int) [] false;
      mk_method K_function "GetH" (Some T_int) [] false;
      mk_method K_function "GetW" (Some T_int) [] false;
      mk_method K_constructor "BaseLayer" None
        [ param T_int "c"; param T_int "h"; param T_int "w";
          param BaseLayer_ptr "ip" ] false;
      mk_method K_function "GetOutputSize" (Some T_size_t) [ param T_int "N" ] false;
      Eval_decl true ].

Definition ConvLayer_ctor_params : list decl :=
  [ param BaseLayer_ptr "ip";
    param T_int "C"; param T_int "H"; param T_int "W";
    param T_int "size"; param T_int "Cin";
    mk_decl false T_bool "relu" InitFalse;
    mk_decl false T_bool "bias" InitFalse ].

Definition ConvLayer : class :=
  mk_class "ConvLayer" (Some "BaseLayer")
    [ const_field T_int "c_input_";
      const_field T_int "filter_size_";
      const_field T_bool "use_relu_";
      const_field T_bool "use_bias_";
      mk_decl false DataType_ptr "biases" InitNullptr;
      mk_decl false DataType_ptr "weights" InitNullptr;
      field T_cudnnFilterDescriptor_t "filter_desc_";
      field T_cudnnConvolutionDescriptor_t "conv_desc_";
      field T_cudnnConvolutionFwdAlgo_t "conv_algo_";
      field T_cudnnTensorDescriptor_t "bias_desc_";
      field T_cudnnTensorDescriptor_t "in_tensor_desc_";
      field T_cudnnTensorDescriptor_t "out_tensor_desc_";
      field T_cudnnActivationDescriptor_t "activation_" ]
    [ mk_method K_constructor "ConvLayer" None ConvLayer_ctor_params false;
      mk_method K_destructor "~ConvLayer" None [] false;
      mk_method K_function "LoadWeights" (Some T_void)
        [ param float_ptr "pfilter"; param float_ptr "pBias";
          param void_ptr "scratch" ] false;
      Eval_decl false ].

Definition SoftMaxLayer : class :=
  mk_class "SoftMaxLayer" (Some "BaseLayer")
    [ field T_cudnnTensorDescriptor_t "out_tensor_desc_" ]
    [ mk_method K_constructor "SoftMaxLayer" None [ param BaseLayer_ptr "ip" ] false;
      Eval_decl false ].

Definition BNLayer : class :=
  mk_class "BNLayer" (Some "BaseLayer")
    [ const_field T_bool "use_relu_";
      mk_decl false float_ptr "means_" InitNullptr;
      mk_decl false float_ptr "variances_" InitNullptr ]
    [ mk_method K_constructor "BNLayer" None
        [ param BaseLayer_ptr "ip"; param T_bool "relu" ] false;
      mk_method K_destructor "~BNLayer" None [] false;
      mk_method K_function "LoadWeights" (Some T_void)
        [ param float_ptr "cpuMeans"; param float_ptr "cpuVar" ] false;
      Eval_decl false ].

Definition FCLayer_ctor_params : list decl :=
  [ param BaseLayer_ptr "ip";
    param T_int "C"; param T_int "H"; param T_int "W";
    param T_bool "relu"; param T_bool "bias";
    mk_decl false T_bool "tanh" InitFalse;
    mk_decl false T_bool "sigmoid" InitFalse ].

Definition FCLayer : class :=
  mk_class "FCLayer" (Some "BaseLayer")
    [ const_field T_bool "use_bias_";
      const_field T_bool "use_relu_";
      const_field T_bool "use_tanh_";
      const_field T_bool "use_sigmoid_";
      mk_decl false DataType_ptr "weights_" InitNullptr;
      mk_decl false DataType_ptr "biases_" InitNullptr ]
    [ mk_method K_constructor "FCLayer" None FCLayer_ctor_params false;
      mk_method K_destructor "~FCLayer" None [] false;
      mk_method K_function "LoadWeights" (Some T_void)
        [ param float_ptr "cpuWeight"; param float_ptr "cpuBias";
          param void_ptr "scratch" ] false;
      Eval_decl false ].

Definition SELayer : class :=
  mk_class "SELayer" (Some "BaseLayer")
    [ mk_decl false DataType_ptr "w1_" InitNullptr;
      mk_decl false DataType_ptr "b1_" InitNullptr;
      mk_decl false DataType_ptr "w2_" InitNullptr;
      mk_decl false DataType_ptr "b2_" InitNullptr;
      mk_decl false DataType_ptr "bPrev_" InitNullptr;
      field T_int "numFc1Out_";
      field T_bool "addPrevLayerBias_" ]
    [ mk_method K_constructor "SELayer" None
        [ param BaseLayer_ptr "ip"; param T_int "numFc1Out";
          mk_decl false T_bool "addPrevLayerBias" InitFalse ] false;
      mk_method K_destructor "~SELayer" None [] false;
      mk_method K_function "LoadWeights" (Some T_void)
        [ param float_ptr "w1"; param float_ptr "b1";
          param float_ptr "w2"; param float_ptr "b2";
          param float_ptr "prevLayerBias"; param void_ptr "scratch" ] false;
      Eval_decl false ].

Definition GlobalAvgPoolLayer : class :=
  mk_class "GlobalAvgPoolLayer" (Some "BaseLayer")
    []
    [ mk_method K_constructor "GlobalAvgPoolLayer" None
        [ param BaseLayer_ptr "ip" ] false;
      Eval_decl false ].

Definition GlobalScaleLayer : class :=
  mk_class "GlobalScaleLayer" (Some "BaseLayer")
    []
    [ mk_method K_constructor "GlobalScaleLayer" None
        [ param BaseLayer_ptr "ip" ] false;
      Eval_decl false ].

(** All classes of the header, in declaration order, and the concrete layer
    kinds among them. *)
Definition classes : list class :=
  [ BaseLayer; ConvLayer; SoftMaxLayer; BNLayer; FCLayer; SELayer;
    GlobalAvgPoolLayer; GlobalScaleLayer ].

Definition layer_kinds : list class :=
  [ ConvLayer; SoftMaxLayer; BNLayer; FCLayer; SELayer;
    GlobalAvgPoolLayer; GlobalScaleLayer ].

(** *** Queries *)

Definition ctype_eqb (a b : ctype) : bool :=
  match a, b with
  | T_void, T_void | T_int, T_int | T_bool, T_bool | T_size_t, T_size_t
  | T_cudnnHandle_t, T_cudnnHandle_t | T_cublasHandle_t, T_cublasHandle_t
  | T_cudnnFilterDescriptor_t, T_cudnnFilterDescriptor_t
  | T_cudnnConvolutionDescriptor_t, T_cudnnConvolutionDescriptor_t
  | T_cudnnConvolutionFwdAlgo_t, T_cudnnConvolutionFwdAlgo_t
  | T_cudnnTensorDescriptor_t, T_cudnnTensorDescriptor_t
  | T_cudnnActivationDescriptor_t, T_cudnnActivationDescriptor_t => true
  | T_ptr c1 p1, T_ptr c2 p2 =>
      Bool.eqb c1 c2 &&
      match p1, p2 with
      | P_DataType, P_DataType | P_float, P_float | P_void, P_void
      | P_BaseLayer, P_BaseLayer => true
      | _, _ => false
      end
  | _, _ => false
  end.

(** The opaque handles of the device compute context. *)
Definition is_handle (ty : ctype) : bool :=
  match ty with
  | T_cudnnHandle_t | T_cublasHandle_t => true
  | _ => false
  end.

(** Pointers to tensor elements: what a parameter buffer is declared as. *)
Definition is_buffer_ptr (ty : ctype) : bool :=
  match ty with
  | T_ptr _ P_DataType | T_ptr _ P_float => true
  | _ => false
  end.

Definition find_method (name : string) (c : class) : option method :=
  find (fun m => String.eqb (m_name m) name) (c_methods c).

Definition has_method (name : string) (c : class) : bool :=
  match find_method name c with
  | Some _ => true
  | None => false
  end.

Definition has_destructor (c : class) : bool :=
  existsb (fun m => match m_kind m with K_destructor => true | _ => false end)
          (c_methods c).

Definition buffer_fields (c : class) : list decl :=
  filter (fun d => is_buffer_ptr (d_type d) = true) (c_fields c).

Definition fields_of_type (ty : ctype) (c : class) : list decl :=
  filter (fun d => ctype_eqb (d_type d) ty = true) (c_fields c).

Definition stores_handle (c : class) : bool :=
  existsb (fun d => is_handle (d_type d)) (c_fields c).

Definition init_is_nullptr (d : decl) : bool :=
  match d_init d with
  | InitNullptr => true
  | _ => false
  end.

(** The class declares no loader, no parameter buffer and no destructor. *)
Definition needs_no_loading (c : class) : bool :=
  negb (has_method "LoadWeights" c)
  && forallb (fun d => negb (is_buffer_ptr (d_type d))) (c_fields c)
  && negb (has_destructor c).

(** Names of the parameter buffers of a class that carry the default member
    initialiser [nullptr], and of those that do not. *)
Definition null_initialised (c : class) : list string :=
  d_name <$> filter (fun d => init_is_nullptr d = true) (buffer_fields c).
Definition not_null_initialised (c : class) : list string :=
  d_name <$> filter (fun d => init_is_nullptr d = false) (buffer_fields c).

(** The layer kinds that own parameters. *)
Definition parameter_layers : list class :=
  [ ConvLayer; BNLayer; FCLayer; SELayer ].

(** The layer kinds that own none. *)
Definition parameterless_layers : list class :=
  [ SoftMaxLayer; GlobalAvgPoolLayer; GlobalScaleLayer ].

Definition signature (ps : list decl) : list ctype := d_type <$> ps.

(** The parameters of the loader of a class, and the host arrays among
    them. *)
Definition loader_params (c : class) : list decl :=
  match find_method "LoadWeights" c with
  | Some m => m_params m
  | None => []
  end.

Definition host_arrays (c : class) : list decl :=
  filter (fun d => ctype_eqb (d_type d) float_ptr = true) (loader_params c).

(** The class has at least one parameter buffer among its members. *)
Definition owns_buffers (c : class) : bool :=
  existsb (fun d => is_buffer_ptr (d_type d)) (c_fields c).

(** The members [BaseLayer] implements inline. *)
Definition base_inline_members : list string :=
  [ "GetC"; "GetH"; "GetW"; "GetOutputSize" ].

(** *** Calls against a declared parameter list *)










End Header.

(** ** Exact arithmetic

    The rationals as an idealised element type for both instantiations of
    [DataType]: no rounding, conversion from host [float] is the
    identity. Used to evaluate the models on concrete tensors. *)

Module Exact.

Definition relu (q : Q) : Q := if Qle_bool 0 q then q else 0%Q.

#[export] Instance elems : ElemModel := {|
  value := fun _ => Q;
  from_float := fun _ q => q
|}.

#[export] Instance arith : Arith Q := {|
  ezero := 0%Q;
  eadd := Qplus;
  emul := Qmult;
  erelu := relu;
  ediv := fun s n => (s / inject_Z (Z.of_nat n))%Q
|}.

#[export] Instance arith_value (dt : DataType) : Arith (value dt) := arith.

(** A small squeeze-and-excitation layer: two channels of 1 x 2 planes,
    reduced to one channel and expanded to two scales and two shifts, with
    the previous layer's bias fused in; constructed, then loaded. *)
Definition se_layer : SELayer.t float :=
  SELayer.LoadWeights float
    (SELayer.ctor float (BaseLayer.ctor 2 1 2 None) 1 true)
    [1; 1]%Q [-1]%Q [1; 0; -1; 1]%Q [0; 2; 1; -4]%Q [1; -1]%Q None.

End Exact.

(** * Properties *)

(** ** Machine arithmetic *)

Lemma to_size_t_range x : 0 <= Cxx.to_size_t x <= Cxx.SIZE_MAX.
Proof.
  unfold Cxx.to_size_t, Cxx.SIZE_MAX.
  pose proof (Z.mod_pos_bound x (2 ^ 64) ltac:(lia)). lia.
Qed.

Lemma size_mul_range a b : 0 <= Cxx.size_mul a b <= Cxx.SIZE_MAX.
Proof. apply to_size_t_range. Qed.

(** Wrapping multiplication is multiplication in Z/2^64: reducing an operand
    first changes nothing. *)
Lemma size_mul_mod_r a b : Cxx.size_mul a (b mod 2 ^ 64) = (a * b) mod 2 ^ 64.
Proof. unfold Cxx.size_mul. now rewrite Z.mul_mod_idemp_r by lia. Qed.

Lemma size_mul_to_size_t a b :
  Cxx.size_mul (a mod 2 ^ 64) (Cxx.to_size_t b) = (a * b) mod 2 ^ 64.
Proof.
  unfold Cxx.size_mul, Cxx.to_size_t.
  now rewrite Z.mul_mod_idemp_l, Z.mul_mod_idemp_r by lia.
Qed.

Lemma sizeof_pos dt : 0 < sizeof dt.
Proof. destruct dt; reflexivity. Qed.

(** ** Output size *)

(** Whatever the operands, [GetOutputSize] is the exact product reduced
    modulo 2^64. *)
Lemma GetOutputSize_mod dt l N :
  BaseLayer.GetOutputSize dt l N
  = BaseLayer.exact_output_size dt l N mod 2 ^ 64.
Proof.
  unfold BaseLayer.GetOutputSize, BaseLayer.exact_output_size.
  unfold Cxx.to_size_t at 1. rewrite size_mul_mod_r.
  rewrite !size_mul_to_size_t. reflexivity.
Qed.

Lemma GetOutputSize_range dt l N :
  0 <= BaseLayer.GetOutputSize dt l N <= Cxx.SIZE_MAX.
Proof. apply size_mul_range. Qed.

Lemma exact_output_size_nonneg dt l N :
  0 <= N -> 0 <= BaseLayer.C l -> 0 <= BaseLayer.H l -> 0 <= BaseLayer.W l ->
  0 <= BaseLayer.exact_output_size dt l N.
Proof.
  intros HN HC HH HW. unfold BaseLayer.exact_output_size.
  pose proof (sizeof_pos dt).
  repeat apply Z.mul_nonneg_nonneg; lia.
Qed.

(** C1, as stated, fails: a layer whose stored shape is
    C = H = W = 65536, evaluated at batch size 65536 on [float], has an
    exact output size of 2^66 bytes, and [GetOutputSize] returns 0. All
    four numbers are values of [int]. *)
Lemma GetOutputSize_wraps :
  let l := Layer.GlobalScale (EM := Exact.elems) float
             (GlobalScaleLayer.Build
                (BaseLayer.Build None 65536 65536 65536)) in
  Cxx.is_int 65536 /\
  1 <= 65536 /\
  Layer.GetOutputSize float l 65536 = 0 /\
  sizeof float * 65536 * Layer.GetC float l * Layer.GetH float l
    * Layer.GetW float l = 2 ^ 66 /\
  Layer.GetOutputSize float l 65536
  <> sizeof float * 65536 * Layer.GetC float l * Layer.GetH float l
       * Layer.GetW float l.
Proof.
  cbv zeta. split; [| split; [| split; [| split]]].
  - unfold Cxx.is_int, Cxx.INT_MIN, Cxx.INT_MAX. lia.
  - lia.
  - reflexivity.
  - reflexivity.
  - vm_compute. discriminate.
Qed.

(** C1, amended: for every layer kind and every batch size N >= 1 the
    result of [GetOutputSize(N)] is exactly sizeof(DataType) * N * C * H * W
    whenever the stored dimensions are non-negative and that product fits
    [size_t]. *)
Theorem GetOutputSize_exact `{EM : ElemModel} dt (l : Layer.t dt) (N : Z) :
  1 <= N ->
  0 <= Layer.GetC dt l -> 0 <= Layer.GetH dt l -> 0 <= Layer.GetW dt l ->
  sizeof dt * N * Layer.GetC dt l * Layer.GetH dt l * Layer.GetW dt l
    <= Cxx.SIZE_MAX ->
  Layer.GetOutputSize dt l N
  = sizeof dt * N * Layer.GetC dt l * Layer.GetH dt l * Layer.GetW dt l.
Proof.
  intros HN HC HH HW Hfit.
  unfold Layer.GetOutputSize, Layer.GetC, Layer.GetH, Layer.GetW in *.
  unfold BaseLayer.GetC, BaseLayer.GetH, BaseLayer.GetW in *.
  rewrite GetOutputSize_mod.
  pose proof (exact_output_size_nonneg dt (Layer.base dt l) N
                ltac:(lia) HC HH HW) as Hpos.
  unfold BaseLayer.exact_output_size in *.
  apply Z.mod_small. unfold Cxx.SIZE_MAX in Hfit. lia.
Qed.

Lemma GetOutputSize_exact_witness :
  Layer.GetOutputSize float
    (Layer.GlobalScale (EM := Exact.elems) float
       (GlobalScaleLayer.Build (BaseLayer.Build None 256 8 8))) 1024
  = 4 * 1024 * 256 * 8 * 8.
Proof.
  apply (GetOutputSize_exact (EM := Exact.elems) float
           (Layer.GlobalScale float
              (GlobalScaleLayer.Build (BaseLayer.Build None 256 8 8)))
           1024);
    vm_compute; discriminate.
Defined.

(** ** Activation selectors of the fully connected layer *)





(** ** Precision of the normalisation statistics *)

Lemma device_alloc_elems `{EM : ElemModel} (elem : DataType) (n : Z) :
  dev_elems (device_alloc (elem := elem) n) = Z.to_nat n.
Proof.
  unfold device_alloc. destruct (Z.ltb_spec 0 n); cbn; [reflexivity | lia].
Qed.

(** What construction and loading do to the statistics: four bytes per
    channel are allocated, and the host values are stored as they are. *)
Lemma BNLayer_statistics_storage `{EM : ElemModel} (dt : DataType)
    (l : BNLayer.t dt) ip relu cpuMeans cpuVar :
  dev_bytes (BNLayer.means_ dt (BNLayer.ctor dt ip relu))
  = 4 * Z.of_nat (Z.to_nat (BaseLayer.GetC ip)) /\
  dev_bytes (BNLayer.variances_ dt (BNLayer.ctor dt ip relu))
  = 4 * Z.of_nat (Z.to_nat (BaseLayer.GetC ip)) /\
  BNLayer.means_ dt (BNLayer.LoadWeights dt l cpuMeans cpuVar)
  = holding cpuMeans /\
  BNLayer.variances_ dt (BNLayer.LoadWeights dt l cpuMeans cpuVar)
  = holding cpuVar.
Proof.
  unfold dev_bytes. cbn [BNLayer.ctor BNLayer.means_ BNLayer.variances_].
  rewrite !device_alloc_elems. repeat split.
Qed.

(** C5: in [BNLayer<DataType>], for [float] and for [half] alike, [means_]
    and [variances_] are declared [float*]: in every state of the layer they
    are buffers of [float], four bytes per element, and whatever a loader of
    the declared kind does to the layer, they still are. *)
Theorem BNLayer_statistics_are_float `{EM : ElemModel} (dt : DataType)
    (l : BNLayer.t dt) :
  Header.signature (Header.buffer_fields Header.BNLayer)
    = [Header.float_ptr; Header.float_ptr] /\
  elem_type (BNLayer.means_ dt l) = float /\
  elem_type (BNLayer.variances_ dt l) = float /\
  sizeof (elem_type (BNLayer.means_ dt l)) = 4 /\
  sizeof (elem_type (BNLayer.variances_ dt l)) = 4 /\
  forall (load : BNLayer.t dt -> list (value float) -> list (value float) ->
                 BNLayer.t dt) cpuMeans cpuVar,
    let l' := load l cpuMeans cpuVar in
    elem_type (BNLayer.means_ dt l') = float /\
    elem_type (BNLayer.variances_ dt l') = float /\
    dev_bytes (BNLayer.means_ dt l')
    = 4 * Z.of_nat (dev_elems (BNLayer.means_ dt l')) /\
    dev_bytes (BNLayer.variances_ dt l')
    = 4 * Z.of_nat (dev_elems (BNLayer.variances_ dt l')).
Proof.
  split; [reflexivity |].
  do 4 (split; [reflexivity |]).
  intros load cpuMeans cpuVar l'. repeat split.
Qed.

(** ** Layers without parameters *)

Section Parameterless.
Context `{EM : ElemModel} (dt : DataType).

Lemma parameterless_owns_nothing (l : Layer.t dt) :
  Layer.parameterless dt l = true ->
  Layer.param_ptrs dt l = [] /\ Layer.param_bytes dt l = 0 /\
  Layer.evaluable dt l = true /\ Layer.to_release dt l = [].
Proof. destruct l; cbn; intros Hk; try discriminate; auto. Qed.

End Parameterless.

(** C9: [SoftMaxLayer], [GlobalAvgPoolLayer] and [GlobalScaleLayer] declare
    no [LoadWeights], no parameter buffer and no destructor; every instance
    of them, a freshly constructed one included, owns no parameter pointer,
    holds no device parameter memory, is evaluable as it stands and has
    nothing to release. *)
Theorem parameterless_layers_trivially_loaded :
  Forall (fun c => Header.needs_no_loading c = true)
         Header.parameterless_layers /\
  forall (EM : ElemModel) (dt : DataType)
         (s : SoftMaxLayer.t) (g : GlobalAvgPoolLayer.t)
         (k : GlobalScaleLayer.t),
    Forall (fun l => Layer.param_ptrs dt l = [] /\
                     Layer.param_bytes dt l = 0 /\
                     Layer.evaluable dt l = true /\
                     Layer.to_release dt l = [])
           [ Layer.SoftMax dt s;
             Layer.GlobalAvgPool dt g;
             Layer.GlobalScale dt k ].
Proof.
  split.
  - repeat constructor.
  - intros EM dt s g k.
    repeat (apply Forall_cons; split;
            [now apply parameterless_owns_nothing |]).
    apply Forall_nil_2.
Qed.

(** ** Default member initialisers of the parameter pointers *)

(** X12: each of the eleven parameter pointers of the four layer kinds that
    own parameters is declared with the default member initialiser
    [nullptr], and no class of the header declares a parameter pointer
    without it. *)
Theorem parameter_pointers_declared_nullptr :
  (fun c => (Header.c_name c, Header.null_initialised c))
    <$> Header.parameter_layers
  = [ ("ConvLayer", [ "biases"; "weights" ]);
      ("BNLayer", [ "means_"; "variances_" ]);
      ("FCLayer", [ "weights_"; "biases_" ]);
      ("SELayer", [ "w1_"; "b1_"; "w2_"; "b2_"; "bPrev_" ]) ]%string /\
  Forall (fun c => Header.not_null_initialised c = []) Header.classes.
Proof.
  split; [reflexivity |]. repeat constructor.
Qed.

(** ** The evaluation interface *)

Lemma Eval_declared_by_every_class :
  Forall (fun c => exists pure,
            Header.find_method "Eval" c = Some (Header.Eval_decl pure))
         Header.classes.
Proof. repeat constructor; eexists; reflexivity. Qed.

Lemma no_class_stores_a_handle :
  Forall (fun c => Header.stores_handle c = false) Header.classes.
Proof. repeat constructor. Qed.

(** C7, as stated, fails: [Eval] does not take a single device compute
    context after the six buffer and size parameters; its parameter list has
    eight entries, the last two being separate handles. *)
Lemma Eval_context_is_not_single :
  length (filter (fun d => Header.is_handle (Header.d_type d) = true)
                 Header.Eval_params) = 2%nat /\
  ~ (exists ctx,
       Header.signature Header.Eval_params
       = [ Header.T_int; Header.DataType_ptr; Header.const_DataType_ptr;
           Header.const_DataType_ptr; Header.void_ptr; Header.T_size_t;
           ctx ]).
Proof.
  split; [reflexivity |].
  intros [ctx Hsig]. apply (f_equal length) in Hsig. discriminate Hsig.
Qed.

(** C7, amended: the evaluation operation of every class takes a batch
    size, an output buffer, a primary input buffer, a secondary input
    buffer, a scratch buffer with its capacity, and the device compute
    context as two opaque handles, one of cuDNN and one of cuBLAS; it
    returns nothing, and no class has a member in which a handle could be
    kept. *)
Theorem Eval_signature :
  Header.signature Header.Eval_params
  = [ Header.T_int; Header.DataType_ptr; Header.const_DataType_ptr;
      Header.const_DataType_ptr; Header.void_ptr; Header.T_size_t;
      Header.T_cudnnHandle_t; Header.T_cublasHandle_t ] /\
  Forall (fun c => exists m,
            Header.find_method "Eval" c = Some m /\
            Header.m_params m = Header.Eval_params /\
            Header.m_return m = Some Header.T_void)
         Header.classes /\
  Forall (fun c => Header.stores_handle c = false) Header.classes.
Proof.
  split; [reflexivity |]. split.
  - eapply Forall_impl; [apply Eval_declared_by_every_class |].
    intros c [pure Hfind]. exists (Header.Eval_decl pure). auto.
  - apply no_class_stores_a_handle.
Qed.

(** ** Construction and algorithm selection of the convolution layer *)

Section ConvLayerFacts.
Context `{EM : ElemModel} (dt : DataType).
Context (when : ConvLayer.selection_time).
Context (fastest_algo :
           BaseLayer.t -> Z -> Z -> cudnn.cudnnConvolutionFwdAlgo_t).
Context (conv_forward :
           cudnn.cudnnConvolutionFwdAlgo_t -> ConvLayer.t dt -> Z ->
           list (value dt) -> option (list (value dt)) -> list (value dt)).

Local Abbreviation select_algo := (ConvLayer.select_algo dt fastest_algo).
Local Abbreviation LoadWeights := (ConvLayer.LoadWeights dt when fastest_algo).
Local Abbreviation Eval :=
  (ConvLayer.Eval dt fastest_algo conv_forward).
Local Abbreviation step :=
  (ConvLayer.step dt when fastest_algo conv_forward).
Local Abbreviation run :=
  (ConvLayer.run dt when fastest_algo conv_forward).

Lemma selections_app (tr1 tr2 : list ConvLayer.event) :
  ConvLayer.selections (tr1 ++ tr2)
  = (ConvLayer.selections tr1 + ConvLayer.selections tr2)%nat.
Proof.
  unfold ConvLayer.selections. rewrite filter_app, length_app. reflexivity.
Qed.

Lemma convolutions_app (tr1 tr2 : list ConvLayer.event) :
  ConvLayer.convolutions (tr1 ++ tr2)
  = (ConvLayer.convolutions tr1 + ConvLayer.convolutions tr2)%nat.
Proof.
  unfold ConvLayer.convolutions. rewrite filter_app, length_app. reflexivity.
Qed.

Lemma select_algo_ok b ci fs (l : ConvLayer.t dt) :
  ConvLayer.cache_ok dt fastest_algo b ci fs l ->
  exists l1 ev,
    select_algo l = (l1, fastest_algo b ci fs, ev) /\
    ConvLayer.call_ok dt fastest_algo b ci fs l l1 ev /\
    ConvLayer.conv_algo_ dt l1 = Some (fastest_algo b ci fs) /\
    ConvLayer.weights dt l1 = ConvLayer.weights dt l /\
    ConvLayer.use_bias_ dt l1 = ConvLayer.use_bias_ dt l /\
    ConvLayer.biases dt l1 = ConvLayer.biases dt l /\
    ConvLayer.convolutions ev = 0%nat.
Proof.
  intros (Hb & Hci & Hfs & Hc).
  unfold ConvLayer.call_ok, ConvLayer.cache_ok, ConvLayer.cached.
  destruct Hc as [Hc | Hc].
  - exists (ConvLayer.set_conv_algo dt l (fastest_algo b ci fs)),
           [ConvLayer.SelectAlgo (fastest_algo b ci fs)].
    split.
    { unfold ConvLayer.select_algo. rewrite Hc, Hb, Hci, Hfs. reflexivity. }
    cbn. rewrite Hc. repeat split; auto.
  - exists l, [].
    split.
    { unfold ConvLayer.select_algo. rewrite Hc. reflexivity. }
    cbn. rewrite Hc. repeat split; auto.
Qed.

Lemma LoadWeights_ok b ci fs (l : ConvLayer.t dt) pfilter pBias scratch :
  ConvLayer.cache_ok dt fastest_algo b ci fs l ->
  exists l' tr,
    LoadWeights l pfilter pBias scratch = (l', tr) /\
    ConvLayer.call_ok dt fastest_algo b ci fs l l' tr /\
    ConvLayer.weights dt l' = holding (from_float dt <$> pfilter) /\
    ConvLayer.convolutions tr = 0%nat.
Proof.
  intros Hok. unfold ConvLayer.LoadWeights.
  destruct when.
  - destruct (select_algo_ok b ci fs l Hok)
      as (l1 & ev & Hsel & (Hok1 & Hcount & Hall) & Halgo & _ & _ & _ & Hconv).
    rewrite Hsel. cbv beta iota.
    eexists _, _. split; [reflexivity |].
    split; [| split; [reflexivity | exact Hconv]].
    destruct Hok1 as (Hb & Hci & Hfs & Hc).
    unfold ConvLayer.call_ok, ConvLayer.cache_ok, ConvLayer.cached in *. cbn.
    repeat split; auto.
  - eexists _, _. split; [reflexivity |].
    split; [| split; reflexivity].
    destruct Hok as (Hb & Hci & Hfs & Hc).
    unfold ConvLayer.call_ok, ConvLayer.cache_ok, ConvLayer.cached. cbn.
    repeat split; auto.
Qed.

Lemma Eval_ok b ci fs (l : ConvLayer.t dt) buf
    N input input2 scratch scratch_size cudnn cublas :
  ConvLayer.cache_ok dt fastest_algo b ci fs l ->
  ConvLayer.weights dt l = holding buf ->
  exists l' out tr,
    Eval l N input input2 scratch scratch_size cudnn cublas
    = Some (l', out, tr) /\
    ConvLayer.call_ok dt fastest_algo b ci fs l l' tr /\
    ConvLayer.conv_algo_ dt l' = Some (fastest_algo b ci fs) /\
    ConvLayer.weights dt l' = holding buf /\
    ConvLayer.convolutions tr = 1%nat.
Proof.
  intros Hok Hw. unfold ConvLayer.Eval. rewrite Hw.
  destruct (select_algo_ok b ci fs l Hok)
    as (l1 & ev & Hsel & (Hok1 & Hcount & Hall) & Halgo & Hw1 & _ & _ & Hconv).
  rewrite Hsel. cbv beta iota.
  eexists _, _, _. split; [reflexivity |].
  split; [| split; [exact Halgo | split; [congruence |]]].
  - split; [exact Hok1 |]. split.
    + rewrite selections_app.
      change (ConvLayer.selections
                [ConvLayer.ConvForward (fastest_algo b ci fs) N])
        with 0%nat.
      lia.
    + apply Forall_app. split; [exact Hall |].
      apply Forall_cons. split; [reflexivity | apply Forall_nil_2].
  - rewrite convolutions_app, Hconv. reflexivity.
Qed.

(** Once the weights are loaded every call sequence runs to its end. *)
Lemma run_loaded b ci fs (cs : list (ConvLayer.call dt)) :
  forall (l : ConvLayer.t dt),
    ConvLayer.cache_ok dt fastest_algo b ci fs l ->
    is_loaded (ConvLayer.weights dt l) = true ->
    exists l' tr,
      run l cs = Some (l', tr) /\
      ConvLayer.call_ok dt fastest_algo b ci fs l l' tr /\
      is_loaded (ConvLayer.weights dt l') = true /\
      ConvLayer.convolutions tr = ConvLayer.eval_calls dt cs.
Proof.
  induction cs as [| c cs IH]; intros l Hok Hw.
  - exists l, []. split; [reflexivity |].
    split; [| split; [exact Hw | reflexivity]].
    split; [exact Hok |]. split; [reflexivity | apply Forall_nil_2].
  - assert (exists l1 tr1,
               step l c = Some (l1, tr1) /\
               ConvLayer.call_ok dt fastest_algo b ci fs l l1 tr1 /\
               is_loaded (ConvLayer.weights dt l1) = true /\
               ConvLayer.convolutions tr1
               = (if ConvLayer.is_eval_call dt c then 1 else 0)%nat)
      as (l1 & tr1 & Hstep & Hcall1 & Hw1 & Hconv1).
    { destruct c as [pfilter pBias scratch
                    | N input input2 scratch scratch_size cudnn cublas].
      - destruct (LoadWeights_ok b ci fs l pfilter pBias scratch Hok)
          as (l1 & tr1 & HL & Hcall & Hhold & Hconv).
        exists l1, tr1. cbn. rewrite HL, Hhold. auto.
      - destruct (ConvLayer.weights dt l) as [| n | buf] eqn:Hbuf;
          try discriminate Hw.
        destruct (Eval_ok b ci fs l buf N input input2 scratch scratch_size
                    cudnn cublas Hok Hbuf)
          as (l1 & out & tr1 & HE & Hcall & _ & Hhold & Hconv).
        exists l1, tr1. cbn. rewrite HE, Hhold. auto. }
    destruct Hcall1 as (Hok1 & Hcount1 & Hall1).
    destruct (IH l1 Hok1 Hw1)
      as (l2 & tr2 & Hrun & (Hok2 & Hcount2 & Hall2) & Hw2 & Hconv2).
    exists l2, (tr1 ++ tr2). cbn [ConvLayer.run]. rewrite Hstep, Hrun.
    split; [reflexivity |].
    split; [| split; [exact Hw2 |]].
    + split; [exact Hok2 |]. split.
      * rewrite selections_app. lia.
      * apply Forall_app. split; assumption.
    + rewrite convolutions_app, Hconv1, Hconv2. unfold ConvLayer.eval_calls.
      rewrite filter_cons.
      destruct (ConvLayer.is_eval_call dt c); cbn; reflexivity.
Qed.

(** A layer that is constructed, loaded and evaluated, and then used in any
    way, asked the backend for an algorithm exactly once. *)
Lemma run_from_construction ip C H W size Cin relu bias
    pfilter pBias scratch N input input2 scratch' scratch_size cudnn cublas
    (cs : list (ConvLayer.call dt)) :
  let l := ConvLayer.ctor dt ip C H W size Cin relu bias in
  let a := fastest_algo (ConvLayer.base dt l) Cin size in
  exists l' tr,
    run l (ConvLayer.CallLoadWeights dt pfilter pBias scratch
           :: ConvLayer.CallEval dt N input input2 scratch' scratch_size
                cudnn cublas
           :: cs)
    = Some (l', tr) /\
    ConvLayer.conv_algo_ dt l' = Some a /\
    ConvLayer.selections tr = 1%nat /\
    ConvLayer.convolutions tr = S (ConvLayer.eval_calls dt cs) /\
    Forall (fun e => ConvLayer.event_algo e = a) tr.
Proof.
  intros l a.
  set (b := ConvLayer.base dt l).
  assert (ConvLayer.cache_ok dt fastest_algo b Cin size l) as Hok.
  { subst b l. unfold ConvLayer.cache_ok. cbn. auto. }
  destruct (LoadWeights_ok b Cin size l pfilter pBias scratch Hok)
    as (l1 & tr1 & HL & (Hok1 & Hcount1 & Hall1) & Hhold1 & Hconv1).
  destruct (Eval_ok b Cin size l1 _ N input input2 scratch' scratch_size
              cudnn cublas Hok1 Hhold1)
    as (l2 & out & tr2 & HE & (Hok2 & Hcount2 & Hall2) & Halgo2 & Hhold2
        & Hconv2).
  assert (is_loaded (ConvLayer.weights dt l2) = true) as Hw2
      by (rewrite Hhold2; reflexivity).
  destruct (run_loaded b Cin size cs l2 Hok2 Hw2)
    as (l3 & tr3 & Hrun & (Hok3 & Hcount3 & Hall3) & _ & Hconv3).
  exists l3, (tr1 ++ tr2 ++ tr3).
  cbn [ConvLayer.run ConvLayer.step]. rewrite HL, HE, Hrun.
  assert (ConvLayer.cached dt l = 0%nat) as Hc0 by reflexivity.
  assert (ConvLayer.cached dt l2 = 1%nat) as Hc2
      by (unfold ConvLayer.cached; rewrite Halgo2; reflexivity).
  assert (ConvLayer.cached dt l3 = 1%nat) as Hc3.
  { unfold ConvLayer.cached in *.
    destruct (ConvLayer.conv_algo_ dt l3); [reflexivity | lia]. }
  split; [reflexivity |].
  split; [| split; [| split]].
  - destruct Hok3 as (_ & _ & _ & [Hnone | Hsome]); [| exact Hsome].
    unfold ConvLayer.cached in Hc3. rewrite Hnone in Hc3. discriminate Hc3.
  - rewrite !selections_app. lia.
  - rewrite !convolutions_app, Hconv1, Hconv2, Hconv3. reflexivity.
  - repeat (apply Forall_app; split); assumption.
Qed.

End ConvLayerFacts.

(** C8, refuted as to the parameter list: the constructor of [ConvLayer]
    takes the upstream layer first, so its parameters are not exactly the
    output shape, the input channel count, the filter size and the two
    flags. *)
Lemma ConvLayer_ctor_takes_upstream :
  head (Header.signature Header.ConvLayer_ctor_params)
  = Some Header.BaseLayer_ptr /\
  ~ (Header.signature Header.ConvLayer_ctor_params
     ≡ₚ [ Header.T_int; Header.T_int; Header.T_int; Header.T_int;
          Header.T_int; Header.T_bool; Header.T_bool ]).
Proof.
  split; [reflexivity |].
  intros Hperm. apply Permutation_length in Hperm. discriminate Hperm.
Qed.

(** C8, amended: the constructor of [ConvLayer] takes exactly the upstream
    layer, the declared output shape, the filter size, the input channel
    count and the flags for fused activation and fused bias. The instance
    has one member for a convolution algorithm, [conv_algo_], and no member
    function receives one. Whether the selection is made at load or at first
    use, a layer that is constructed, loaded, evaluated and then used in any
    way selects its algorithm once, keeps that single choice in
    [conv_algo_] and runs every evaluation with it. *)
Theorem ConvLayer_construction_and_algorithm :
  Header.find_method "ConvLayer" Header.ConvLayer
  = Some (Header.mk_method Header.K_constructor "ConvLayer" None
            Header.ConvLayer_ctor_params false) /\
  (fun d => (Header.d_name d, Header.d_type d, Header.d_init d))
    <$> Header.ConvLayer_ctor_params
  = [ ("ip", Header.BaseLayer_ptr, Header.NoInit);
      ("C", Header.T_int, Header.NoInit);
      ("H", Header.T_int, Header.NoInit);
      ("W", Header.T_int, Header.NoInit);
      ("size", Header.T_int, Header.NoInit);
      ("Cin", Header.T_int, Header.NoInit);
      ("relu", Header.T_bool, Header.InitFalse);
      ("bias", Header.T_bool, Header.InitFalse) ]%string /\
  Header.d_name
    <$> Header.fields_of_type Header.T_cudnnConvolutionFwdAlgo_t
          Header.ConvLayer
  = [ "conv_algo_"%string ] /\
  Forall (fun m =>
            Forall (fun d => Header.d_type d
                             <> Header.T_cudnnConvolutionFwdAlgo_t)
                   (Header.m_params m))
         (Header.c_methods Header.ConvLayer) /\
  forall (EM : ElemModel) (dt : DataType)
         (when : ConvLayer.selection_time) fastest_algo conv_forward
         ip C H W size Cin relu bias
         pfilter pBias scratch
         N input input2 scratch' scratch_size cudnn cublas cs,
    let l := ConvLayer.ctor dt ip C H W size Cin relu bias in
    let a := fastest_algo (ConvLayer.base dt l) Cin size in
    exists l' tr,
      ConvLayer.run dt when fastest_algo conv_forward l
        (ConvLayer.CallLoadWeights dt pfilter pBias scratch
         :: ConvLayer.CallEval dt N input input2 scratch' scratch_size
              cudnn cublas
         :: cs)
      = Some (l', tr) /\
      ConvLayer.conv_algo_ dt l' = Some a /\
      ConvLayer.selections tr = 1%nat /\
      ConvLayer.convolutions tr
      = S (ConvLayer.eval_calls dt cs) /\
      Forall (fun e => ConvLayer.event_algo e = a) tr.
Proof.
  split; [reflexivity |].
  split; [reflexivity |].
  split; [reflexivity |].
  split.
  - repeat constructor; discriminate.
  - intros EM dt when fastest_algo conv_forward ip C H W size Cin relu bias
      pfilter pBias scratch N input input2 scratch' scratch_size cudnn cublas
      cs.
    apply (run_from_construction dt when fastest_algo conv_forward
             ip C H W size Cin relu bias pfilter pBias scratch
             N input input2 scratch' scratch_size cudnn cublas cs).
Qed.

(** ** Flat buffers *)

Section TensorFacts.
Context {T : Type} `{AR : Arith T}.
Local Open Scope nat_scope.

Lemma tabulate_length n (f : nat -> T) : length (Tensor.tabulate n f) = n.
Proof. unfold Tensor.tabulate. now rewrite length_fmap, length_seq. Qed.

Lemma get_tabulate n (f : nat -> T) i :
  i < n -> Tensor.get (Tensor.tabulate n f) i = f i.
Proof.
  intros Hi. unfold Tensor.get, Tensor.tabulate.
  apply nth_lookup_Some with (d := ezero).
  rewrite list_lookup_fmap, lookup_seq_lt by exact Hi. reflexivity.
Qed.

Lemma tabulate_ext n (f g : nat -> T) :
  (forall i, i < n -> f i = g i) -> Tensor.tabulate n f = Tensor.tabulate n g.
Proof.
  intros Hfg. unfold Tensor.tabulate. apply list_fmap_ext.
  intros i x Hx. apply lookup_seq in Hx as [-> Hlt]. apply Hfg. exact Hlt.
Qed.

Lemma tabulate_const n (v : T) : Tensor.tabulate n (fun _ => v) = replicate n v.
Proof.
  unfold Tensor.tabulate. generalize 0 as start.
  induction n as [| n IH]; intros start; cbn; [reflexivity |].
  f_equal. apply IH.
Qed.

(** Splitting a flat range of [H * W] indices into [H] rows of [W]. *)
Lemma tabulate_rows H W (f : nat -> T) :
  Tensor.tabulate (H * W) f
  = flat_map (fun h => Tensor.tabulate W (fun w => f (h * W + w))) (seq 0 H).
Proof.
  induction H as [| H IH].
  - reflexivity.
  - rewrite seq_S, flat_map_app. cbn [flat_map]. rewrite app_nil_r, <- IH.
    unfold Tensor.tabulate.
    replace (S H * W) with (H * W + W) by lia.
    rewrite seq_app, fmap_app. f_equal.
    cbn [Nat.add].
    replace (seq (H * W) W) with (Nat.add (H * W) <$> seq 0 W)
      by now rewrite fmap_add_seq, Nat.add_0_r.
    now rewrite <- list_fmap_compose.
Qed.

(** *** Index arithmetic of the NCHW layout *)

Lemma row_index_bound N C n c : n < N -> c < C -> n * C + c < N * C.
Proof.
  intros Hn Hc.
  assert (S n * C <= N * C) as Hle by (apply Nat.mul_le_mono_r; lia).
  cbn [Nat.mul] in Hle. lia.
Qed.

Lemma flat_index_bound N C HW n c p :
  n < N -> c < C -> p < HW -> (n * C + c) * HW + p < N * C * HW.
Proof.
  intros Hn Hc Hp. apply (row_index_bound (N * C) HW (n * C + c) p).
  - now apply row_index_bound.
  - exact Hp.
Qed.

Lemma flat_index_plane HW nc p : p < HW -> (nc * HW + p) / HW = nc.
Proof.
  intros Hp. rewrite Nat.div_add_l by lia. rewrite Nat.div_small by exact Hp.
  lia.
Qed.

Lemma row_index_div C n c : c < C -> (n * C + c) / C = n.
Proof. apply flat_index_plane. Qed.

Lemma row_index_mod C n c : c < C -> (n * C + c) mod C = c.
Proof.
  intros Hc. rewrite Nat.add_comm, Nat.Div0.mod_add.
  apply Nat.mod_small. exact Hc.
Qed.

Lemma offset_flat C H W n c h w :
  Tensor.offset C H W n c h w = (n * C + c) * (H * W) + (h * W + w).
Proof. unfold Tensor.offset. lia. Qed.

(** *** What each kernel writes at a given coordinate *)

Lemma plane_spatial C H W (x : list T) n c :
  Tensor.plane (H * W) x (n * C + c) = Tensor.spatial C H W x n c.
Proof.
  unfold Tensor.plane, Tensor.spatial. rewrite tabulate_rows.
  apply flat_map_ext. intros h. unfold Tensor.tabulate.
  apply list_fmap_ext. intros i w _. now rewrite offset_flat.
Qed.

Lemma get_add_channel_bias N C HW (x bias : list T) n c p :
  n < N -> c < C -> p < HW ->
  Tensor.get (Tensor.add_channel_bias N C HW x bias) ((n * C + c) * HW + p)
  = eadd (Tensor.get x ((n * C + c) * HW + p)) (Tensor.get bias c).
Proof.
  intros Hn Hc Hp. unfold Tensor.add_channel_bias.
  rewrite get_tabulate by now apply flat_index_bound.
  now rewrite flat_index_plane, row_index_mod.
Qed.

Lemma get_global_avg_pool N C HW (x : list T) n c :
  n < N -> c < C ->
  Tensor.get (Tensor.global_avg_pool N C HW x) (n * C + c)
  = Tensor.mean (Tensor.plane HW x (n * C + c)).
Proof.
  intros Hn Hc. unfold Tensor.global_avg_pool.
  now rewrite get_tabulate by now apply row_index_bound.
Qed.

Lemma get_fully_connected act N n_in n_out (w b x : list T) n j :
  n < N -> j < n_out ->
  Tensor.get (Tensor.fully_connected act N n_in n_out w b x) (n * n_out + j)
  = act (eadd
           (Tensor.sum
              (Tensor.tabulate n_in (fun k =>
                 emul (Tensor.get w (j * n_in + k))
                      (Tensor.get x (n * n_in + k)))))
           (Tensor.get b j)).
Proof.
  intros Hn Hj. unfold Tensor.fully_connected.
  rewrite get_tabulate by now apply row_index_bound.
  now rewrite row_index_div, row_index_mod.
Qed.

Lemma get_global_scale act N C HW (y sb : list T) residual n c p :
  n < N -> c < C -> p < HW ->
  let i := (n * C + c) * HW + p in
  let v := eadd (emul (Tensor.get y i) (Tensor.scale_of C sb n c))
                (Tensor.shift_of C sb n c) in
  Tensor.get (Tensor.global_scale act N C HW y sb residual) i
  = act (match residual with
         | Some r => eadd v (Tensor.get r i)
         | None => v
         end).
Proof.
  intros Hn Hc Hp i v. subst i v. unfold Tensor.global_scale.
  rewrite get_tabulate by now apply flat_index_bound.
  now rewrite flat_index_plane, row_index_div, row_index_mod.
Qed.

End TensorFacts.

(** ** Global average pooling *)

Section GlobalAvgPoolFacts.
Context `{EM : ElemModel} (dt : DataType) `{AR : !Arith (value dt)}.
Local Open Scope nat_scope.

Lemma GlobalAvgPool_declared_shape (ip : BaseLayer.t) :
  let l := GlobalAvgPoolLayer.ctor ip in
  BaseLayer.GetC (GlobalAvgPoolLayer.base l) = BaseLayer.GetC ip /\
  BaseLayer.GetH (GlobalAvgPoolLayer.base l) = 1%Z /\
  BaseLayer.GetW (GlobalAvgPoolLayer.base l) = 1%Z.
Proof. cbn. auto. Qed.

(** On an input of N*C*H*W elements the layer writes N*C values, the one of
    batch element [i] and channel [j] being the mean of the H*W values of
    that plane. *)
Lemma GlobalAvgPool_Eval_mean (ip : BaseLayer.t) (N : Z)
    (input : list (value dt)) input2 scratch scratch_size cudnn cublas :
  let l := GlobalAvgPoolLayer.ctor ip in
  let n := Z.to_nat N in
  let c := Z.to_nat (BaseLayer.GetC ip) in
  let h := Z.to_nat (BaseLayer.GetH ip) in
  let w := Z.to_nat (BaseLayer.GetW ip) in
  length input = n * c * (h * w) ->
  exists out,
    GlobalAvgPoolLayer.Eval dt l N input input2 scratch scratch_size
      cudnn cublas = Some out /\
    length out = n * c * 1 * 1 /\
    forall i j, i < n -> j < c ->
      Tensor.get out (Tensor.offset c 1 1 i j 0 0)
      = Tensor.mean (Tensor.spatial c h w input i j).
Proof.
  intros l n c h w Hlen.
  exists (Tensor.global_avg_pool n c (h * w) input).
  split; [| split].
  - unfold GlobalAvgPoolLayer.Eval.
    change (GlobalAvgPoolLayer.plane_size l) with (h * w).
    change (Z.to_nat (BaseLayer.C (GlobalAvgPoolLayer.base l))) with c.
    fold n. now rewrite decide_True by exact Hlen.
  - unfold Tensor.global_avg_pool. rewrite tabulate_length. lia.
  - intros i j Hi Hj.
    replace (Tensor.offset c 1 1 i j 0 0) with (i * c + j)
      by (unfold Tensor.offset; lia).
    rewrite get_global_avg_pool by assumption.
    now rewrite plane_spatial.
Qed.

End GlobalAvgPoolFacts.

(** *** In exact arithmetic *)

Lemma Qsum_repeat (v : Q) k (a : Q) :
  (fold_left Qplus (replicate k v) a == a + inject_Z (Z.of_nat k) * v)%Q.
Proof.
  revert a. induction k as [| k IH]; intros a.
  - cbn. ring.
  - cbn [replicate fold_left]. rewrite IH.
    rewrite Nat2Z.inj_succ. unfold Z.succ. rewrite inject_Z_plus. ring.
Qed.

Lemma mean_repeat (v : Q) k :
  (0 < k)%nat ->
  (Tensor.mean (AR := Exact.arith) (replicate k v) == v)%Q.
Proof.
  intros Hk. unfold Tensor.mean, Tensor.sum. cbn [ediv eadd ezero Exact.arith].
  rewrite Qsum_repeat, length_replicate.
  field. intros H0.
  unfold Qeq in H0. cbn in H0. lia.
Qed.

Lemma spatial_uniform (v : Q) C H W total n c :
  ((n * C + c) * (H * W) + H * W <= total)%nat ->
  Tensor.spatial (AR := Exact.arith) C H W (replicate total v) n c
  = replicate (H * W) v.
Proof.
  intros Hfit. rewrite <- plane_spatial. unfold Tensor.plane.
  rewrite (tabulate_ext _ _ (fun _ => v)).
  - apply tabulate_const.
  - intros p Hp. unfold Tensor.get.
    apply nth_lookup_Some with (d := ezero).
    apply lookup_replicate_2. lia.
Qed.

(** C6: a [GlobalAvgPoolLayer] declares the output shape (C, 1, 1); on an
    (N, C, H, W) input it produces N*C values, the one for batch element [i]
    and channel [j] being the arithmetic mean of the H*W values of that
    plane. In exact arithmetic a uniform input gives back its constant, and
    the 2x2 plane 1, 2, 3, 4 gives 5/2. *)
Theorem GlobalAvgPool_averages_each_plane :
  (forall (EM : ElemModel) (dt : DataType) (AR : Arith (value dt))
          (ip : BaseLayer.t) (N : Z) (input : list (value dt))
          input2 scratch scratch_size cudnn cublas,
     let l := GlobalAvgPoolLayer.ctor ip in
     let n := Z.to_nat N in
     let c := Z.to_nat (BaseLayer.GetC ip) in
     let h := Z.to_nat (BaseLayer.GetH ip) in
     let w := Z.to_nat (BaseLayer.GetW ip) in
     BaseLayer.GetC (GlobalAvgPoolLayer.base l) = BaseLayer.GetC ip /\
     BaseLayer.GetH (GlobalAvgPoolLayer.base l) = 1 /\
     BaseLayer.GetW (GlobalAvgPoolLayer.base l) = 1 /\
     (length input = (n * c * (h * w))%nat ->
      exists out,
        GlobalAvgPoolLayer.Eval dt l N input input2 scratch scratch_size
          cudnn cublas = Some out /\
        length out = (n * c * 1 * 1)%nat /\
        forall i j, (i < n)%nat -> (j < c)%nat ->
          Tensor.get out (Tensor.offset c 1 1 i j 0 0)
          = Tensor.mean (Tensor.spatial c h w input i j))) /\
  (forall (dt : DataType) (ip : BaseLayer.t) (N : Z) (v : Q)
          input2 scratch scratch_size cudnn cublas,
     let l := GlobalAvgPoolLayer.ctor ip in
     let n := Z.to_nat N in
     let c := Z.to_nat (BaseLayer.GetC ip) in
     let h := Z.to_nat (BaseLayer.GetH ip) in
     let w := Z.to_nat (BaseLayer.GetW ip) in
     (0 < h * w)%nat ->
     exists out,
       GlobalAvgPoolLayer.Eval (EM := Exact.elems) dt (AR := Exact.arith)
         l N (replicate (n * c * (h * w)) v) input2 scratch scratch_size
         cudnn cublas = Some out /\
       forall i j, (i < n)%nat -> (j < c)%nat ->
         (Tensor.get (AR := Exact.arith) out (Tensor.offset c 1 1 i j 0 0)
          == v)%Q) /\
  (exists x,
     GlobalAvgPoolLayer.Eval (EM := Exact.elems) float (AR := Exact.arith)
       (GlobalAvgPoolLayer.ctor (BaseLayer.ctor 1 2 2 None)) 1
       [1; 2; 3; 4]%Q None None 0 0 0 = Some [x] /\
     (x == 5 # 2)%Q).
Proof.
  split; [| split].
  - intros EM dt AR ip N input input2 scratch scratch_size cudnn cublas
           l n c h w.
    destruct (GlobalAvgPool_declared_shape ip) as (HC & HH & HW).
    repeat (split; [assumption |]).
    apply GlobalAvgPool_Eval_mean.
  - intros dt ip N v input2 scratch scratch_size cudnn cublas l n c h w Hhw.
    destruct (GlobalAvgPool_Eval_mean (EM := Exact.elems) dt
                (AR := Exact.arith) ip N
                (replicate (n * c * (h * w)) v) input2 scratch scratch_size
                cudnn cublas) as (out & Heval & _ & Hout).
    { apply length_replicate. }
    exists out. split; [exact Heval |].
    intros i j Hi Hj.
    assert (Tensor.get (AR := Exact.arith) out (Tensor.offset c 1 1 i j 0 0)
            = Tensor.mean (AR := Exact.arith) (replicate (h * w) v)) as ->.
    2: now apply mean_repeat.
    etransitivity; [exact (Hout i j Hi Hj) |].
    f_equal. apply spatial_uniform.
    + pose proof (flat_index_bound n c (h * w) i j 0 Hi Hj Hhw) as Hb.
      fold n c h w in Hb |- *.
      pose proof (row_index_bound n c i j Hi Hj) as Hr.
      assert (S (i * c + j) * (h * w) <= n * c * (h * w))%nat as Hle
        by (apply Nat.mul_le_mono_r; lia).
      cbn [Nat.mul] in Hle. lia.
  - exists (10 # 4)%Q. split; reflexivity.
Qed.

Lemma GlobalAvgPool_averages_each_plane_witness :
  exists out,
    GlobalAvgPoolLayer.Eval (EM := Exact.elems) half (AR := Exact.arith)
      (GlobalAvgPoolLayer.ctor (BaseLayer.ctor 2 1 2 None)) 1
      [3; 5; 7; 7]%Q None None 0 0 0 = Some out /\
    length out = 2%nat /\
    Tensor.get (AR := Exact.arith) out 0 = (8 # 2)%Q /\
    Tensor.get (AR := Exact.arith) out 1 = (14 # 2)%Q.
Proof.
  destruct GlobalAvgPool_averages_each_plane as [Hgen _].
  destruct (Hgen Exact.elems half Exact.arith (BaseLayer.ctor 2 1 2 None) 1%Z
              [3; 5; 7; 7]%Q None None 0%Z 0%Z 0%Z)
    as (_ & _ & _ & Heval).
  destruct (Heval eq_refl) as (out & Hout & Hlen & Hget).
  exists out. split; [exact Hout |]. split; [exact Hlen |]. split.
  - apply (Hget 0%nat 0%nat); vm_compute; lia.
  - apply (Hget 0%nat 1%nat); vm_compute; lia.
Defined.

(** ** The fused squeeze-and-excitation layer *)

Section SELayerFacts.
Context `{EM : ElemModel} (dt : DataType) `{AR : !Arith (value dt)}.
Local Open Scope nat_scope.

Variable l : SELayer.t dt.
Variables w1 b1 w2 b2 bPrev input : list (value dt).
Variable N : Z.

Local Abbreviation n := (Z.to_nat N).
Local Abbreviation c := (SELayer.channels dt l).
Local Abbreviation m := (SELayer.reduced dt l).
Local Abbreviation hw := (SELayer.plane_size dt l).

Local Abbreviation step1 := (SELayer.step1 dt l N bPrev input).
Local Abbreviation fc1_buffer :=
  (SELayer.fc1_buffer dt l N w1 b1 bPrev input).
Local Abbreviation fc2_buffer :=
  (SELayer.fc2_buffer dt l N w1 b1 w2 b2 bPrev input).

Lemma biased_input_step1 :
  (SELayer.addPrevLayerBias_ dt l = true -> SELayer.bPrev_ dt l = holding bPrev) ->
  SELayer.biased_input dt l N input = Some step1.
Proof.
  intros Hb. unfold SELayer.biased_input, SELayer.step1.
  destruct (SELayer.addPrevLayerBias_ dt l); [| reflexivity].
  now rewrite Hb.
Qed.

Lemma length_step1 : length input = n * c * hw -> length step1 = n * c * hw.
Proof.
  intros Hlen. unfold SELayer.step1.
  destruct (SELayer.addPrevLayerBias_ dt l); [| exact Hlen].
  unfold Tensor.add_channel_bias. apply tabulate_length.
Qed.

Lemma get_step1 i j p :
  i < n -> j < c -> p < hw ->
  Tensor.get step1 (SELayer.flat dt l i j p)
  = SELayer.biased_at dt l bPrev input i j p.
Proof.
  intros Hi Hj Hp. unfold SELayer.step1, SELayer.biased_at, SELayer.flat.
  destruct (SELayer.addPrevLayerBias_ dt l); [| reflexivity].
  now apply get_add_channel_bias.
Qed.

Lemma get_pooled i j :
  i < n -> j < c ->
  Tensor.get (Tensor.global_avg_pool n c hw step1) (i * c + j)
  = SELayer.pooled_at dt l bPrev input i j.
Proof.
  intros Hi Hj. rewrite get_global_avg_pool by assumption.
  unfold SELayer.pooled_at, Tensor.plane. f_equal.
  apply tabulate_ext. intros p Hp. now apply get_step1.
Qed.

Lemma get_fc1 i j :
  i < n -> j < m ->
  Tensor.get fc1_buffer (i * m + j)
  = SELayer.fc1_at dt l w1 b1 bPrev input i j.
Proof.
  intros Hi Hj. unfold SELayer.fc1_buffer.
  rewrite get_fully_connected by assumption.
  unfold SELayer.fc1_at. do 3 f_equal.
  apply tabulate_ext. intros k Hk. f_equal. now apply get_pooled.
Qed.

Lemma get_fc2 i k :
  i < n -> k < 2 * c ->
  Tensor.get fc2_buffer (i * (2 * c) + k)
  = SELayer.fc2_at dt l w1 b1 w2 b2 bPrev input i k.
Proof.
  intros Hi Hk. unfold SELayer.fc2_buffer.
  rewrite get_fully_connected by assumption.
  unfold SELayer.fc2_at. do 2 f_equal.
  apply tabulate_ext. intros j Hj. f_equal. now apply get_fc1.
Qed.

(** [Eval] on a loaded layer and well-sized buffers succeeds, and what it
    writes at each coordinate is the value the steps of the specification
    give there. *)
Lemma SELayer_Eval_at input2 scratch scratch_size cudnn cublas :
  SELayer.w1_ dt l = holding w1 -> SELayer.b1_ dt l = holding b1 ->
  SELayer.w2_ dt l = holding w2 -> SELayer.b2_ dt l = holding b2 ->
  (SELayer.addPrevLayerBias_ dt l = true -> SELayer.bPrev_ dt l = holding bPrev) ->
  length input = n * c * hw ->
  SELayer.skip_fits dt (n * c * hw) input2 = true ->
  exists out,
    SELayer.Eval dt l N input input2 scratch scratch_size cudnn cublas
    = Some out /\
    length out = n * c * hw /\
    forall i j p, i < n -> j < c -> p < hw ->
      Tensor.get out (SELayer.flat dt l i j p)
      = SELayer.result_at dt l w1 b1 w2 b2 bPrev input input2 i j p.
Proof.
  intros Hw1 Hb1 Hw2 Hb2 HbPrev Hlen Hskip.
  exists (Tensor.global_scale erelu n c hw step1 fc2_buffer input2).
  split; [| split].
  - unfold SELayer.Eval. rewrite Hw1, Hb1, Hw2, Hb2.
    fold c m hw. rewrite Hskip.
    replace (length input =? n * c * hw) with true
      by (symmetry; now apply Nat.eqb_eq).
    cbn [andb]. now rewrite (biased_input_step1 HbPrev).
  - unfold Tensor.global_scale. apply tabulate_length.
  - intros i j p Hi Hj Hp. unfold SELayer.flat.
    rewrite (get_global_scale erelu n c hw step1 fc2_buffer input2
               i j p Hi Hj Hp).
    unfold SELayer.result_at, SELayer.scale_at, SELayer.shift_at.
    unfold Tensor.scale_of, Tensor.shift_of.
    rewrite <- Nat.add_assoc.
    rewrite !get_fc2 by lia.
    change ((i * c + j) * hw + p) with (SELayer.flat dt l i j p).
    rewrite get_step1 by assumption.
    reflexivity.
Qed.

End SELayerFacts.

(** C2: an evaluation of a loaded [SELayer] on buffers of the declared size
    succeeds, and its output is, at every coordinate, the result of the
    steps in order: the previous layer's bias added to the primary input
    when configured; the mean of that tensor over each plane; the first
    dense stage, rectified; the second dense stage, giving a scale and a
    shift per channel; the scale and shift applied to the full-resolution
    tensor that was pooled; the skip input added; the sum rectified. On the
    example layer, input planes (1, 3) and (2, 4) with skip (0, -20) and
    (1, 1) give (5, 0) and (3, 7). *)
Theorem SELayer_fused_sequence :
  (forall (EM : ElemModel) (dt : DataType) (AR : Arith (value dt))
          (l : SELayer.t dt) (w1 b1 w2 b2 bPrev input : list (value dt))
          (N : Z) input2 scratch scratch_size cudnn cublas,
     let total :=
       (Z.to_nat N * SELayer.channels dt l * SELayer.plane_size dt l)%nat in
     SELayer.w1_ dt l = holding w1 -> SELayer.b1_ dt l = holding b1 ->
     SELayer.w2_ dt l = holding w2 -> SELayer.b2_ dt l = holding b2 ->
     (SELayer.addPrevLayerBias_ dt l = true ->
      SELayer.bPrev_ dt l = holding bPrev) ->
     length input = total ->
     SELayer.skip_fits dt total input2 = true ->
     exists out,
       SELayer.Eval dt l N input input2 scratch scratch_size cudnn cublas
       = Some out /\
       length out = total /\
       forall i j p,
         (i < Z.to_nat N)%nat -> (j < SELayer.channels dt l)%nat ->
         (p < SELayer.plane_size dt l)%nat ->
         Tensor.get out (SELayer.flat dt l i j p)
         = SELayer.result_at dt l w1 b1 w2 b2 bPrev input input2 i j p) /\
  (exists out,
     SELayer.Eval (EM := Exact.elems) float (AR := Exact.arith)
       Exact.se_layer 1 [1; 3; 2; 4]%Q (Some [0; -20; 1; 1]%Q) None 0 0 0
     = Some out /\
     Forall2 Qeq out [5; 0; 3; 7]%Q).
Proof.
  split.
  - intros EM dt AR l w1 b1 w2 b2 bPrev input N input2 scratch scratch_size
           cudnn cublas total Hw1 Hb1 Hw2 Hb2 HbPrev Hlen Hskip.
    now apply SELayer_Eval_at.
  - eexists. split; [vm_compute; reflexivity |].
    repeat constructor.
Qed.

Lemma SELayer_fused_sequence_witness :
  exists out,
    SELayer.Eval (EM := Exact.elems) float (AR := Exact.arith)
      Exact.se_layer 1 [1; 3; 2; 4]%Q (Some [0; -20; 1; 1]%Q) None 0 0 0
    = Some out /\
    length out = 4%nat /\
    Tensor.get (AR := Exact.arith) out 1
    = SELayer.result_at (EM := Exact.elems) float (AR := Exact.arith)
        Exact.se_layer [1; 1]%Q [-1]%Q [1; 0; -1; 1]%Q [0; 2; 1; -4]%Q
        [1; -1]%Q [1; 3; 2; 4]%Q (Some [0; -20; 1; 1]%Q) 0 0 1.
Proof.
  destruct SELayer_fused_sequence as [Hgen _].
  destruct (Hgen Exact.elems float Exact.arith Exact.se_layer
              [1; 1]%Q [-1]%Q [1; 0; -1; 1]%Q [0; 2; 1; -4]%Q [1; -1]%Q
              [1; 3; 2; 4]%Q 1%Z (Some [0; -20; 1; 1]%Q) None 0%Z 0%Z 0%Z
              eq_refl eq_refl eq_refl eq_refl (fun _ => eq_refl)
              eq_refl eq_refl)
    as (out & Hout & Hlen & Hget).
  exists out. split; [exact Hout |]. split; [exact Hlen |].
  apply (Hget 0%nat 0%nat 1%nat); vm_compute; lia.
Defined.

(** * Further properties of the code in layers.h *)

(** ** [GetOutputSize] as the caller of [Eval] uses it *)

Section OutputSizeFacts.
Local Open Scope Z_scope.

Lemma sizeof_divides_modulus dt : (sizeof dt | 2 ^ 64).
Proof.
  destruct dt; [exists (2 ^ 62) | exists (2 ^ 63)]; reflexivity.
Qed.

(** The exact size is the element size times the batch size times the
    number of elements of one sample. *)
Lemma exact_output_size_volume dt l N :
  BaseLayer.exact_output_size dt l N
  = sizeof dt * N * (BaseLayer.C l * BaseLayer.H l * BaseLayer.W l).
Proof. unfold BaseLayer.exact_output_size. ring. Qed.

Lemma volume_nonneg l :
  0 <= BaseLayer.C l -> 0 <= BaseLayer.H l -> 0 <= BaseLayer.W l ->
  0 <= BaseLayer.C l * BaseLayer.H l * BaseLayer.W l.
Proof. intros HC HH HW. repeat apply Z.mul_nonneg_nonneg; assumption. Qed.

(** No wrap-around when the exact size is a value of [size_t]. *)
Lemma GetOutputSize_fits dt l N :
  0 <= BaseLayer.exact_output_size dt l N <= Cxx.SIZE_MAX ->
  BaseLayer.GetOutputSize dt l N = BaseLayer.exact_output_size dt l N.
Proof.
  intros Hfit. rewrite GetOutputSize_mod. apply Z.mod_small.
  unfold Cxx.SIZE_MAX in Hfit. lia.
Qed.

(** The exact size grows with the batch size. *)
Lemma exact_output_size_mono dt l N1 N2 :
  0 <= BaseLayer.C l -> 0 <= BaseLayer.H l -> 0 <= BaseLayer.W l ->
  N1 <= N2 ->
  BaseLayer.exact_output_size dt l N1 <= BaseLayer.exact_output_size dt l N2.
Proof.
  intros HC HH HW HN. rewrite !exact_output_size_volume.
  pose proof (volume_nonneg l HC HH HW) as HK.
  pose proof (sizeof_pos dt) as Hs.
  apply Z.mul_le_mono_nonneg_r; [exact HK |].
  apply Z.mul_le_mono_nonneg_l; lia.
Qed.

End OutputSizeFacts.

(** X1: no layer class redeclares [GetC], [GetH], [GetW] or
    [GetOutputSize], so every layer kind answers with the inline code of
    [BaseLayer]; and for every batch size and every stored shape, negative
    values included, the result of [GetOutputSize] is the product
    sizeof(DataType) * N * C * H * W reduced modulo 2^64. *)
Theorem Layer_GetOutputSize_modular :
  Forall (fun c =>
            Forall (fun name => Header.has_method name c = false)
                   Header.base_inline_members)
         Header.layer_kinds /\
  forall (EM : ElemModel) (dt : DataType) (l : Layer.t dt) (N : Z),
    Layer.GetOutputSize dt l N
    = (sizeof dt * N * Layer.GetC dt l * Layer.GetH dt l * Layer.GetW dt l)
        mod 2 ^ 64.
Proof.
  split.
  - repeat constructor.
  - intros EM dt l N. unfold Layer.GetOutputSize.
    now rewrite GetOutputSize_mod.
Qed.

(** X2: whatever the operands, also after a wrap-around, the byte count
    [GetOutputSize] returns is a whole number of elements: it is a multiple
    of sizeof(DataType). *)
Theorem GetOutputSize_multiple_of_sizeof `{EM : ElemModel} dt
    (l : Layer.t dt) (N : Z) :
  Layer.GetOutputSize dt l N mod sizeof dt = 0.
Proof.
  unfold Layer.GetOutputSize. rewrite GetOutputSize_mod.
  pose proof (sizeof_pos dt) as Hs.
  rewrite Z.mod_mod_divide by apply sizeof_divides_modulus.
  rewrite exact_output_size_volume, <- Z.mul_assoc, Z.mul_comm.
  apply Z.mod_mul. lia.
Qed.

(** X3: batches add up. For non-negative batch sizes and dimensions, when
    the size of the joint batch fits [size_t], the output of a batch of
    N1 + N2 takes exactly the bytes of a batch of N1 plus those of a batch
    of N2. *)
Theorem GetOutputSize_additive `{EM : ElemModel} dt (l : Layer.t dt)
    (N1 N2 : Z) :
  0 <= N1 -> 0 <= N2 ->
  0 <= Layer.GetC dt l -> 0 <= Layer.GetH dt l -> 0 <= Layer.GetW dt l ->
  sizeof dt * (N1 + N2) * Layer.GetC dt l * Layer.GetH dt l
    * Layer.GetW dt l <= Cxx.SIZE_MAX ->
  Layer.GetOutputSize dt l (N1 + N2)
  = Layer.GetOutputSize dt l N1 + Layer.GetOutputSize dt l N2.
Proof.
  intros HN1 HN2 HC HH HW Hfit.
  unfold Layer.GetOutputSize, Layer.GetC, Layer.GetH, Layer.GetW in *.
  unfold BaseLayer.GetC, BaseLayer.GetH, BaseLayer.GetW in *.
  set (b := Layer.base dt l) in *.
  change (BaseLayer.exact_output_size dt b (N1 + N2) <= Cxx.SIZE_MAX)
    in Hfit.
  pose proof (exact_output_size_nonneg dt b N1 HN1 HC HH HW) as Hp1.
  pose proof (exact_output_size_nonneg dt b N2 HN2 HC HH HW) as Hp2.
  pose proof (exact_output_size_mono dt b N1 (N1 + N2) HC HH HW
                ltac:(lia)) as Hm1.
  pose proof (exact_output_size_mono dt b N2 (N1 + N2) HC HH HW
                ltac:(lia)) as Hm2.
  rewrite !GetOutputSize_fits by lia.
  rewrite !exact_output_size_volume. ring.
Qed.

Lemma GetOutputSize_additive_witness :
  let l := Layer.GlobalScale (EM := Exact.elems) half
             (GlobalScaleLayer.Build (BaseLayer.Build None 256 8 8)) in
  Layer.GetOutputSize half l (512 + 256)
  = Layer.GetOutputSize half l 512 + Layer.GetOutputSize half l 256.
Proof.
  cbv zeta.
  apply (GetOutputSize_additive (EM := Exact.elems) half
           (Layer.GlobalScale half
              (GlobalScaleLayer.Build (BaseLayer.Build None 256 8 8)))
           512 256);
    vm_compute; discriminate.
Defined.

(** X4: a buffer sized for the largest batch serves every smaller one. For
    non-negative dimensions and 0 <= N1 <= N2, when the size for N2 fits
    [size_t], [GetOutputSize(N1)] is at most [GetOutputSize(N2)]. *)
Theorem GetOutputSize_monotone `{EM : ElemModel} dt (l : Layer.t dt)
    (N1 N2 : Z) :
  0 <= N1 <= N2 ->
  0 <= Layer.GetC dt l -> 0 <= Layer.GetH dt l -> 0 <= Layer.GetW dt l ->
  sizeof dt * N2 * Layer.GetC dt l * Layer.GetH dt l * Layer.GetW dt l
    <= Cxx.SIZE_MAX ->
  Layer.GetOutputSize dt l N1 <= Layer.GetOutputSize dt l N2.
Proof.
  intros [HN1 HN12] HC HH HW Hfit.
  unfold Layer.GetOutputSize, Layer.GetC, Layer.GetH, Layer.GetW in *.
  unfold BaseLayer.GetC, BaseLayer.GetH, BaseLayer.GetW in *.
  set (b := Layer.base dt l) in *.
  change (BaseLayer.exact_output_size dt b N2 <= Cxx.SIZE_MAX) in Hfit.
  pose proof (exact_output_size_nonneg dt b N1 HN1 HC HH HW) as Hp1.
  pose proof (exact_output_size_mono dt b N1 N2 HC HH HW HN12) as Hm.
  rewrite !GetOutputSize_fits by lia. exact Hm.
Qed.

Lemma GetOutputSize_monotone_witness :
  let l := Layer.GlobalScale (EM := Exact.elems) float
             (GlobalScaleLayer.Build (BaseLayer.Build None 256 8 8)) in
  Layer.GetOutputSize float l 1 <= Layer.GetOutputSize float l 1024.
Proof.
  cbv zeta.
  apply (GetOutputSize_monotone (EM := Exact.elems) float
           (Layer.GlobalScale float
              (GlobalScaleLayer.Build (BaseLayer.Build None 256 8 8)))
           1 1024);
    vm_compute; try split; discriminate.
Defined.

(** X5: an empty batch or an empty dimension needs no bytes: when N, C, H
    or W is zero, [GetOutputSize] returns 0, whatever the other operands
    are. *)
Theorem GetOutputSize_zero `{EM : ElemModel} dt (l : Layer.t dt) (N : Z) :
  N = 0 \/ Layer.GetC dt l = 0 \/ Layer.GetH dt l = 0 \/ Layer.GetW dt l = 0 ->
  Layer.GetOutputSize dt l N = 0.
Proof.
  intros Hzero.
  unfold Layer.GetOutputSize, Layer.GetC, Layer.GetH, Layer.GetW in *.
  unfold BaseLayer.GetC, BaseLayer.GetH, BaseLayer.GetW in *.
  rewrite GetOutputSize_mod. unfold BaseLayer.exact_output_size.
  replace (sizeof dt * N * BaseLayer.C (Layer.base dt l)
           * BaseLayer.H (Layer.base dt l) * BaseLayer.W (Layer.base dt l))
    with 0; [reflexivity |].
  destruct Hzero as [-> | [-> | [-> | ->]]]; ring.
Qed.

Lemma GetOutputSize_zero_witness :
  Layer.GetOutputSize float
    (Layer.GlobalScale (EM := Exact.elems) float
       (GlobalScaleLayer.Build (BaseLayer.Build None 256 8 8))) 0 = 0.
Proof.
  apply (GetOutputSize_zero (EM := Exact.elems) float
           (Layer.GlobalScale float
              (GlobalScaleLayer.Build (BaseLayer.Build None 256 8 8))) 0).
  left. reflexivity.
Defined.

(** X6: a negative batch size is not rejected. With positive dimensions and
    N < 0, as long as sizeof(DataType) * (-N) * C * H * W is at most 2^64,
    [GetOutputSize(N)] returns 2^64 minus that product: a byte count near
    the top of [size_t]. *)
Theorem GetOutputSize_negative_batch `{EM : ElemModel} dt (l : Layer.t dt)
    (N : Z) :
  N < 0 ->
  0 < Layer.GetC dt l -> 0 < Layer.GetH dt l -> 0 < Layer.GetW dt l ->
  sizeof dt * (- N) * Layer.GetC dt l * Layer.GetH dt l * Layer.GetW dt l
    <= 2 ^ 64 ->
  Layer.GetOutputSize dt l N
  = 2 ^ 64
    - sizeof dt * (- N) * Layer.GetC dt l * Layer.GetH dt l
      * Layer.GetW dt l.
Proof.
  intros HN HC HH HW Hfit.
  unfold Layer.GetOutputSize, Layer.GetC, Layer.GetH, Layer.GetW in *.
  unfold BaseLayer.GetC, BaseLayer.GetH, BaseLayer.GetW in *.
  set (b := Layer.base dt l) in *.
  rewrite GetOutputSize_mod. unfold BaseLayer.exact_output_size.
  pose proof (sizeof_pos dt) as Hs.
  assert (0 < sizeof dt * (- N) * BaseLayer.C b * BaseLayer.H b
              * BaseLayer.W b) as Hpos
    by (repeat apply Z.mul_pos_pos; lia).
  set (Q := sizeof dt * (- N) * BaseLayer.C b * BaseLayer.H b
            * BaseLayer.W b) in *.
  replace (sizeof dt * N * BaseLayer.C b * BaseLayer.H b * BaseLayer.W b)
    with (- Q) by (subst Q; ring).
  rewrite <- (Z_mod_plus_full (- Q) 1 (2 ^ 64)).
  destruct (Z.eq_dec Q (2 ^ 64)) as [-> | Hne].
  - reflexivity.
  - rewrite Z.mod_small by lia. lia.
Qed.

Lemma GetOutputSize_negative_batch_witness :
  Layer.GetOutputSize float
    (Layer.GlobalScale (EM := Exact.elems) float
       (GlobalScaleLayer.Build (BaseLayer.Build None 256 8 8))) (-1)
  = 2 ^ 64 - 4 * (- -1) * 256 * 8 * 8.
Proof.
  apply (GetOutputSize_negative_batch (EM := Exact.elems) float
           (Layer.GlobalScale float
              (GlobalScaleLayer.Build (BaseLayer.Build None 256 8 8)))
           (-1));
    vm_compute; try reflexivity; discriminate.
Defined.

(** X7: half precision halves the buffers. For the same stored shape and a
    non-negative batch size, when the [float] size fits [size_t], the
    [float] instantiation of [GetOutputSize] returns exactly twice what the
    [half] instantiation returns. *)
Theorem GetOutputSize_float_twice_half (l : BaseLayer.t) (N : Z) :
  0 <= N ->
  0 <= BaseLayer.GetC l -> 0 <= BaseLayer.GetH l -> 0 <= BaseLayer.GetW l ->
  sizeof float * N * BaseLayer.GetC l * BaseLayer.GetH l * BaseLayer.GetW l
    <= Cxx.SIZE_MAX ->
  BaseLayer.GetOutputSize float l N = 2 * BaseLayer.GetOutputSize half l N.
Proof.
  unfold BaseLayer.GetC, BaseLayer.GetH, BaseLayer.GetW.
  intros HN HC HH HW Hfit.
  change (BaseLayer.exact_output_size float l N <= Cxx.SIZE_MAX) in Hfit.
  pose proof (exact_output_size_nonneg float l N HN HC HH HW) as Hpf.
  pose proof (exact_output_size_nonneg half l N HN HC HH HW) as Hph.
  assert (BaseLayer.exact_output_size float l N
          = 2 * BaseLayer.exact_output_size half l N) as Hdouble
    by (unfold BaseLayer.exact_output_size; cbn [sizeof]; ring).
  rewrite !GetOutputSize_fits by lia. exact Hdouble.
Qed.

Lemma GetOutputSize_float_twice_half_witness :
  BaseLayer.GetOutputSize float (BaseLayer.Build None 256 8 8) 1024
  = 2 * BaseLayer.GetOutputSize half (BaseLayer.Build None 256 8 8) 1024.
Proof.
  apply (GetOutputSize_float_twice_half (BaseLayer.Build None 256 8 8) 1024);
    vm_compute; discriminate.
Defined.

(** X8: no batch size can make the product wrap for a layer of ordinary
    size. When one sample has at most 2^31 elements (C * H * W <= 2^31,
    dimensions non-negative), [GetOutputSize(N)] is the exact product for
    every non-negative [int] N, for [float] and [half] alike. *)
Theorem GetOutputSize_exact_for_every_int_batch `{EM : ElemModel} dt
    (l : Layer.t dt) (N : Z) :
  Cxx.is_int N -> 0 <= N ->
  0 <= Layer.GetC dt l -> 0 <= Layer.GetH dt l -> 0 <= Layer.GetW dt l ->
  Layer.GetC dt l * Layer.GetH dt l * Layer.GetW dt l <= 2 ^ 31 ->
  Layer.GetOutputSize dt l N
  = sizeof dt * N * Layer.GetC dt l * Layer.GetH dt l * Layer.GetW dt l.
Proof.
  intros [_ Hmax] HN HC HH HW Hvol.
  unfold Layer.GetOutputSize, Layer.GetC, Layer.GetH, Layer.GetW in *.
  unfold BaseLayer.GetC, BaseLayer.GetH, BaseLayer.GetW in *.
  set (b := Layer.base dt l) in *.
  pose proof (exact_output_size_nonneg dt b N HN HC HH HW) as Hpos.
  pose proof (volume_nonneg b HC HH HW) as HK.
  assert (BaseLayer.exact_output_size dt b N <= Cxx.SIZE_MAX) as Hfit.
  { rewrite exact_output_size_volume.
    assert (sizeof dt * N <= 4 * Cxx.INT_MAX) as HsN.
    { destruct dt; cbn [sizeof]; lia. }
    transitivity (4 * Cxx.INT_MAX * 2 ^ 31).
    - apply Z.mul_le_mono_nonneg; try assumption.
      pose proof (sizeof_pos dt). apply Z.mul_nonneg_nonneg; lia.
    - unfold Cxx.INT_MAX, Cxx.SIZE_MAX. lia. }
  rewrite GetOutputSize_fits by lia. reflexivity.
Qed.

Lemma GetOutputSize_exact_for_every_int_batch_witness :
  Layer.GetOutputSize float
    (Layer.GlobalScale (EM := Exact.elems) float
       (GlobalScaleLayer.Build (BaseLayer.Build None 256 8 8)))
    2147483647
  = 4 * 2147483647 * 256 * 8 * 8.
Proof.
  apply (GetOutputSize_exact_for_every_int_batch (EM := Exact.elems) float
           (Layer.GlobalScale float
              (GlobalScaleLayer.Build (BaseLayer.Build None 256 8 8)))
           2147483647);
    vm_compute; try split; discriminate.
Defined.

(** X9: only the number of elements of a sample matters. Two stored shapes
    with the same product C * H * W (a permutation of the dimensions, or a
    tensor flattened to (C*H*W, 1, 1)) get the same [GetOutputSize] for
    every batch size, wrapped or not. *)
Theorem GetOutputSize_reshape dt (l1 l2 : BaseLayer.t) (N : Z) :
  BaseLayer.GetC l1 * BaseLayer.GetH l1 * BaseLayer.GetW l1
  = BaseLayer.GetC l2 * BaseLayer.GetH l2 * BaseLayer.GetW l2 ->
  BaseLayer.GetOutputSize dt l1 N = BaseLayer.GetOutputSize dt l2 N.
Proof.
  unfold BaseLayer.GetC, BaseLayer.GetH, BaseLayer.GetW. intros Hvol.
  rewrite !GetOutputSize_mod, !exact_output_size_volume, Hvol.
  reflexivity.
Qed.

Lemma GetOutputSize_reshape_witness :
  BaseLayer.GetOutputSize float (BaseLayer.Build None 32 8 8) 16
  = BaseLayer.GetOutputSize float (BaseLayer.Build None 2048 1 1) 16.
Proof.
  apply (GetOutputSize_reshape float (BaseLayer.Build None 32 8 8)
           (BaseLayer.Build None 2048 1 1) 16).
  reflexivity.
Defined.

(** ** Ownership, as the declarations show it *)

(** X10: among the seven layer kinds, the ones that declare a [LoadWeights]
    are exactly the ones that declare a destructor, and exactly the ones
    with a parameter buffer among their members. *)
Theorem loader_destructor_and_buffers_coincide :
  Forall (fun c =>
            Header.has_method "LoadWeights" c = Header.owns_buffers c /\
            Header.has_destructor c = Header.owns_buffers c)
         Header.layer_kinds /\
  filter (fun c => Header.owns_buffers c = true) Header.layer_kinds
  = Header.parameter_layers.
Proof. split; [repeat constructor | reflexivity]. Qed.

(** X11: every loader takes its parameters from the host as [float]
    arrays, whatever [DataType] is: each parameter of a [LoadWeights] is a
    [float*] or the [void*] scratch pointer, none is a [DataType*], and
    there is one host array per parameter buffer of the class. *)
Theorem loaders_take_float_arrays :
  Forall (fun c =>
            Forall (fun d => Header.d_type d = Header.float_ptr \/
                             Header.d_type d = Header.void_ptr)
                   (Header.loader_params c) /\
            length (Header.host_arrays c)
            = length (Header.buffer_fields c))
         Header.parameter_layers.
Proof.
  repeat (apply Forall_cons; split; [split; [| reflexivity] |]);
    try apply Forall_nil_2;
    repeat (apply Forall_cons; split; [auto |]); apply Forall_nil_2.
Qed.
